(** * A shallow embedding of [llm_poe.py]

    The plugin adapts the Poe chat-completion HTTP API to the [llm] model
    registry.  This development models, from [src/llm_poe.py]:
    - the Python values the code handles ([json.loads] results and option
      values) and the Python operations it applies to them ([in], indexing,
      [.get], truthiness), with the exceptions they raise;
    - [PoeModel.execute] and its three subclasses: the payload and request
      they build, the streaming (server-sent events) decode and the
      non-streaming decode;
    - [fetch_available_models] with its module-level cache, and
      [register_models] with its fallback branch. *)

From Stdlib Require Import String Ascii List ZArith QArith Bool Lia.
Import ListNotations.
Set Warnings "-register-all".
Open Scope string_scope.

(** ** Python values and exceptions *)

(** The values [json.loads] produces, which are also the values stored in a
    request payload: [None], [bool], [int], [float] (a rational stands for a
    finite float; only its comparison with zero is ever used), [str],
    [list] and [dict] (an association list in insertion order, keys unique). *)
Inductive pyval : Type :=
| PNone
| PBool (b : bool)
| PInt (z : Z)
| PFloat (q : Q)
| PStr (s : string)
| PList (l : list pyval)
| PDict (kvs : list (string * pyval)).

(** The Python exceptions raised along the modelled paths. *)
Inductive pyexc : Type :=
| TypeError
| AttributeError
| KeyError
| IndexError
| JSONDecodeError
| HTTPStatusError (status : Z)
| TransportError
| ModelError.

(** A computation that returns a value or raises. *)
Inductive res (A : Type) : Type :=
| Ok (a : A)
| Raise (e : pyexc).
Arguments Ok {A} a.
Arguments Raise {A} e.

Definition bind {A B : Type} (m : res A) (k : A -> res B) : res B :=
  match m with
  | Ok a => k a
  | Raise e => Raise e
  end.

Notation "'let!' x ':=' m 'in' k" := (bind m (fun x => k))
  (at level 200, x name, m at level 100, k at level 200).

(** ** Strings *)

(** [s.startswith(p)]. *)
Fixpoint starts_with (p s : string) : bool :=
  match p, s with
  | EmptyString, _ => true
  | String c p', String d s' => Ascii.eqb c d && starts_with p' s'
  | String _ _, EmptyString => false
  end.

(** [p in s] for two strings: substring search. *)
Fixpoint str_contains (p s : string) : bool :=
  starts_with p s ||
  match s with
  | EmptyString => false
  | String _ s' => str_contains p s'
  end.

(** [s[n:]]. *)
Definition str_drop (n : nat) (s : string) : string :=
  substring n (String.length s - n)%nat s.

(** [str.lower] on the ASCII range. *)
Definition ascii_lower (c : ascii) : ascii :=
  let n := nat_of_ascii c in
  if ((65 <=? n) && (n <=? 90))%nat then ascii_of_nat (n + 32)%nat else c.

Fixpoint str_lower (s : string) : string :=
  match s with
  | EmptyString => EmptyString
  | String c s' => String (ascii_lower c) (str_lower s')
  end.

(** [s.replace(a, b)] for one-character [a] and [b]. *)
Fixpoint str_replace (a b : ascii) (s : string) : string :=
  match s with
  | EmptyString => EmptyString
  | String c s' => String (if Ascii.eqb c a then b else c) (str_replace a b s')
  end.

(** The double-quote character, used to write JSON text below. *)
Definition dq : string := String "034"%char EmptyString.

(** A JSON string literal. *)
Definition jstr (s : string) : string := dq ++ s ++ dq.

(** ** Python operations on values *)

(** [bool(v)]. *)
Definition truthy (v : pyval) : bool :=
  match v with
  | PNone => false
  | PBool b => b
  | PInt z => negb (Z.eqb z 0)
  | PFloat q => negb (Qeq_bool q 0)
  | PStr s => negb (String.eqb s EmptyString)
  | PList l => match l with [] => false | _ => true end
  | PDict kvs => match kvs with [] => false | _ => true end
  end.

Fixpoint dict_lookup (k : string) (kvs : list (string * pyval)) : option pyval :=
  match kvs with
  | [] => None
  | (k', v) :: r => if String.eqb k k' then Some v else dict_lookup k r
  end.

(** [d[k] = v]: an existing key keeps its position, a new key is appended. *)
Fixpoint dict_setitem (k : string) (v : pyval) (kvs : list (string * pyval))
  : list (string * pyval) :=
  match kvs with
  | [] => [(k, v)]
  | (k', v') :: r =>
      if String.eqb k k' then (k', v) :: r else (k', v') :: dict_setitem k v r
  end.

(** [k in v] for a string [k]. *)
Definition py_contains (k : string) (v : pyval) : res bool :=
  match v with
  | PDict kvs => Ok (match dict_lookup k kvs with Some _ => true | None => false end)
  | PList l => Ok (existsb (fun x => match x with PStr s => String.eqb s k | _ => false end) l)
  | PStr s => Ok (str_contains k s)
  | _ => Raise TypeError
  end.

(** [v[k]] for a string [k]. *)
Definition py_getitem_str (v : pyval) (k : string) : res pyval :=
  match v with
  | PDict kvs => match dict_lookup k kvs with Some x => Ok x | None => Raise KeyError end
  | _ => Raise TypeError
  end.

(** [v[0]]. *)
Definition py_getitem_0 (v : pyval) : res pyval :=
  match v with
  | PList l => match l with x :: _ => Ok x | [] => Raise IndexError end
  | PStr s => match s with
              | String c _ => Ok (PStr (String c EmptyString))
              | EmptyString => Raise IndexError
              end
  | PDict _ => Raise KeyError
  | _ => Raise TypeError
  end.

(** [v.get(k, default)]: only a dict has [.get]. *)
Definition py_get (v : pyval) (k : string) (default : pyval) : res pyval :=
  match v with
  | PDict kvs => match dict_lookup k kvs with Some x => Ok x | None => Ok default end
  | _ => Raise AttributeError
  end.

(** ** [json.loads]

    The decoders below take [json.loads] as an argument
    ([loads s = None] is the [json.JSONDecodeError] case), and every theorem
    about them holds for any such function.  To run them on concrete bodies
    we use [json_loads], a parser for the JSON the examples need: [null],
    [true], [false], integers, strings with the one-character escapes,
    arrays and objects (a repeated key keeps its first position and its last
    value, as in a Python dict).  Fractions, exponents and [\u] escapes are
    outside it and make it return [None]. *)

Definition is_ws (c : ascii) : bool :=
  Ascii.eqb c " "%char || Ascii.eqb c "009"%char || Ascii.eqb c "010"%char
  || Ascii.eqb c "013"%char.

Fixpoint skip_ws (l : list ascii) : list ascii :=
  match l with
  | c :: r => if is_ws c then skip_ws r else l
  | [] => []
  end.

Fixpoint strip_lit (p l : list ascii) : option (list ascii) :=
  match p, l with
  | [], _ => Some l
  | c :: p', d :: l' => if Ascii.eqb c d then strip_lit p' l' else None
  | _ :: _, [] => None
  end.

Definition is_digit (c : ascii) : bool :=
  let n := nat_of_ascii c in ((48 <=? n) && (n <=? 57))%nat.

Fixpoint parse_digits (l : list ascii) (acc : Z) : Z * list ascii :=
  match l with
  | c :: r =>
      if is_digit c
      then parse_digits r (acc * 10 + Z.of_nat (nat_of_ascii c - 48))%Z
      else (acc, l)
  | [] => (acc, [])
  end.

(** A non-negative integer: a digit, and no leading zero. *)
Definition parse_nat_lit (l : list ascii) : option (Z * list ascii) :=
  match l with
  | c :: r =>
      if Ascii.eqb c "0"%char then
        match r with
        | d :: _ => if is_digit d then None else Some (0%Z, r)
        | [] => Some (0%Z, r)
        end
      else if is_digit c then Some (parse_digits l 0%Z)
      else None
  | [] => None
  end.

Definition unescape (e : ascii) : option ascii :=
  if Ascii.eqb e "034"%char then Some "034"%char
  else if Ascii.eqb e "092"%char then Some "092"%char
  else if Ascii.eqb e "/"%char then Some "/"%char
  else if Ascii.eqb e "n"%char then Some "010"%char
  else if Ascii.eqb e "t"%char then Some "009"%char
  else if Ascii.eqb e "r"%char then Some "013"%char
  else if Ascii.eqb e "b"%char then Some "008"%char
  else if Ascii.eqb e "f"%char then Some "012"%char
  else None.

(** The characters of a string literal after its opening quote. *)
Fixpoint parse_str_chars (l acc : list ascii) : option (string * list ascii) :=
  match l with
  | [] => None
  | c :: r =>
      if Ascii.eqb c "034"%char then Some (string_of_list_ascii (rev acc), r)
      else if Ascii.eqb c "092"%char then
        match r with
        | e :: r' =>
            match unescape e with
            | Some x => parse_str_chars r' (x :: acc)
            | None => None
            end
        | [] => None
        end
      else parse_str_chars r (c :: acc)
  end.

Fixpoint parse_value (fuel : nat) (l : list ascii) {struct fuel}
  : option (pyval * list ascii) :=
  match fuel with
  | O => None
  | S f =>
      match skip_ws l with
      | [] => None
      | c :: r =>
          if Ascii.eqb c "n"%char then
            option_map (fun r' => (PNone, r')) (strip_lit ["u"; "l"; "l"]%char r)
          else if Ascii.eqb c "t"%char then
            option_map (fun r' => (PBool true, r')) (strip_lit ["r"; "u"; "e"]%char r)
          else if Ascii.eqb c "f"%char then
            option_map (fun r' => (PBool false, r')) (strip_lit ["a"; "l"; "s"; "e"]%char r)
          else if Ascii.eqb c "034"%char then
            option_map (fun p => (PStr (fst p), snd p)) (parse_str_chars r [])
          else if Ascii.eqb c "-"%char then
            option_map (fun p => (PInt (- fst p)%Z, snd p)) (parse_nat_lit r)
          else if is_digit c then
            option_map (fun p => (PInt (fst p), snd p)) (parse_nat_lit (c :: r))
          else if Ascii.eqb c "["%char then
            match skip_ws r with
            | c' :: r' =>
                if Ascii.eqb c' "]"%char then Some (PList [], r')
                else parse_elems f (skip_ws r) []
            | [] => None
            end
          else if Ascii.eqb c "{"%char then
            match skip_ws r with
            | c' :: r' =>
                if Ascii.eqb c' "}"%char then Some (PDict [], r')
                else parse_members f (skip_ws r) []
            | [] => None
            end
          else None
      end
  end
with parse_elems (fuel : nat) (l : list ascii) (acc : list pyval) {struct fuel}
  : option (pyval * list ascii) :=
  match fuel with
  | O => None
  | S f =>
      match parse_value f l with
      | None => None
      | Some (v, r) =>
          match skip_ws r with
          | c :: r' =>
              if Ascii.eqb c ","%char then parse_elems f r' (v :: acc)
              else if Ascii.eqb c "]"%char then Some (PList (rev (v :: acc)), r')
              else None
          | [] => None
          end
      end
  end
with parse_members (fuel : nat) (l : list ascii) (acc : list (string * pyval))
  {struct fuel} : option (pyval * list ascii) :=
  match fuel with
  | O => None
  | S f =>
      match skip_ws l with
      | c :: r =>
          if Ascii.eqb c "034"%char then
            match parse_str_chars r [] with
            | Some (k, r1) =>
                match skip_ws r1 with
                | c1 :: r2 =>
                    if Ascii.eqb c1 ":"%char then
                      match parse_value f r2 with
                      | Some (v, r3) =>
                          match skip_ws r3 with
                          | c3 :: r4 =>
                              if Ascii.eqb c3 ","%char
                              then parse_members f r4 (dict_setitem k v acc)
                              else if Ascii.eqb c3 "}"%char
                              then Some (PDict (dict_setitem k v acc), r4)
                              else None
                          | [] => None
                          end
                      | None => None
                      end
                    else None
                | [] => None
                end
            | None => None
            end
          else None
      | [] => None
      end
  end.

Definition json_loads (s : string) : option pyval :=
  let l := list_ascii_of_string s in
  match parse_value (2 * List.length l + 2) l with
  | Some (v, r) => if forallb is_ws r then Some v else None
  | None => None
  end.

Example json_loads_object :
  json_loads ("{" ++ jstr "a" ++ ": [1, -20, null, true], " ++ jstr "b" ++ ":{}}")
  = Some (PDict [("a", PList [PInt 1; PInt (-20); PNone; PBool true]); ("b", PDict [])]).
Proof. reflexivity. Qed.

Example json_loads_rejects : json_loads "{invalid json}" = None.
Proof. reflexivity. Qed.

(** ** Decoding a completion response *)

(** The body of the [try] for one parsed streaming event [chunk]:
    [if "choices" in chunk and chunk["choices"]:
       delta = chunk["choices"][0].get("delta", {})
       if "content" in delta: yield delta["content"]].
    Exceptions other than [JSONDecodeError] are not caught by the loop. *)
Definition chunk_fragment (chunk : pyval) : res (list pyval) :=
  let! has_choices := py_contains "choices" chunk in
  if has_choices then
    let! choices := py_getitem_str chunk "choices" in
    if truthy choices then
      let! first := py_getitem_0 choices in
      let! delta := py_get first "delta" (PDict []) in
      let! has_content := py_contains "content" delta in
      if has_content then
        let! content := py_getitem_str delta "content" in
        Ok [content]
      else Ok []
    else Ok []
  else Ok [].

(** A generator run to its end: what it yielded, and the exception that
    ended it, if any. *)
Definition gen_out : Type := (list pyval * option pyexc)%type.

(** The loop [for line in stream_response.iter_lines(): ...] of
    [PoeModel.execute] (and, verbatim, of [PoeAudioModel.execute]); the
    body is given as the sequence of lines [iter_lines] produces. *)
Fixpoint stream_decode (loads : string -> option pyval) (lines : list string)
  : gen_out :=
  match lines with
  | [] => ([], None)
  | line :: rest =>
      if starts_with "data: " line then
        let data := str_drop 6 line in
        if String.eqb data "[DONE]" then ([], None)
        else
          match loads data with
          | None => stream_decode loads rest
          | Some chunk =>
              match chunk_fragment chunk with
              | Raise e => ([], Some e)
              | Ok frags =>
                  let (more, err) := stream_decode loads rest in
                  ((frags ++ more)%list, err)
              end
          end
      else stream_decode loads rest
  end.

(** What a call to [execute] leaves behind once its generator is drained:
    the fragments yielded, the value stored into [response.response_json]
    (if any) and the exception that surfaced (if any). *)
Record Outcome : Type := mkOutcome {
  fragments : list pyval;
  response_json : option pyval;
  raised : option pyexc
}.

(** [if "choices" in data and data["choices"]:
       yield data["choices"][0]["message"]["content"]]. *)
Definition choice_content (data : pyval) : res (list pyval) :=
  let! has_choices := py_contains "choices" data in
  if has_choices then
    let! choices := py_getitem_str data "choices" in
    if truthy choices then
      let! first := py_getitem_0 choices in
      let! message := py_getitem_str first "message" in
      let! content := py_getitem_str message "content" in
      Ok [content]
    else Ok []
  else Ok [].

(** The non-streaming branch after [raise_for_status]: [data =
    api_response.json()], the optional fragment, then
    [response.response_json = data] (identical in all four classes). *)
Definition nonstream_decode (loads : string -> option pyval) (body : string)
  : Outcome :=
  match loads body with
  | None => mkOutcome [] None (Some JSONDecodeError)
  | Some data =>
      match choice_content data with
      | Raise e => mkOutcome [] None (Some e)
      | Ok frags => mkOutcome frags (Some data) None
      end
  end.

Definition stream_outcome (g : gen_out) : Outcome :=
  mkOutcome (fst g) None (snd g).

(** ** Options, conversation and payload *)

(** [PoeOptions] and its three subclasses; a field is [None] when the
    option value is [None].  Each model class reads the options of its own
    [Options] class, so the [hasattr] tests of the subclasses always hold. *)
Record PoeOptions : Type := mkPoeOptions {
  temperature : option Q;
  max_tokens : option Z
}.

Record PoeImageOptions : Type := mkPoeImageOptions {
  image_base : PoeOptions;
  size : option string;
  quality : option string
}.

Record PoeVideoOptions : Type := mkPoeVideoOptions {
  video_base : PoeOptions;
  duration : option Z;
  aspect_ratio : option string
}.

Record PoeAudioOptions : Type := mkPoeAudioOptions {
  audio_base : PoeOptions;
  voice : option string;
  speed : option Q
}.

Definition opt_float (o : option Q) : option pyval := option_map PFloat o.
Definition opt_int (o : option Z) : option pyval := option_map PInt o.
Definition opt_str (o : option string) : option pyval := option_map PStr o.

(** [if v is not None: payload[k] = v]. *)
Definition set_if_not_none (k : string) (v : option pyval)
  (payload : list (string * pyval)) : list (string * pyval) :=
  match v with
  | Some x => dict_setitem k x payload
  | None => payload
  end.

(** [if v: payload[k] = v] ([None] is falsy). *)
Definition set_if_truthy (k : string) (v : option pyval)
  (payload : list (string * pyval)) : list (string * pyval) :=
  match v with
  | Some x => if truthy x then dict_setitem k x payload else payload
  | None => payload
  end.

(** A previous exchange of the conversation: [prev_response.prompt.prompt]
    and [prev_response.text()]. *)
Record PrevResponse : Type := mkPrevResponse {
  prev_prompt : string;
  prev_text : string
}.

Record Conversation : Type := mkConversation {
  responses : list PrevResponse
}.

Definition message (role content : string) : pyval :=
  PDict [("role", PStr role); ("content", PStr content)].

(** [messages = []; if conversation: for prev_response in ...: append user,
    append assistant]; then [messages.append(user prompt)].  A
    [Conversation] object is always truthy; [None] is modelled by [None]. *)
Definition build_messages (conversation : option Conversation) (prompt : string)
  : list pyval :=
  let messages :=
    match conversation with
    | Some c =>
        fold_left
          (fun msgs prev =>
             ((msgs ++ [message "user" (prev_prompt prev)])
               ++ [message "assistant" (prev_text prev)])%list)
          (responses c) []
    | None => []
    end in
  (messages ++ [message "user" prompt])%list.

Definition POE_API_BASE : string := "https://api.poe.com/v1".

(** The completion request an [execute] sends: URL, JSON payload, timeout
    in seconds, and whether it is sent with [client.stream]. *)
Record Request : Type := mkRequest {
  req_url : string;
  req_payload : list (string * pyval);
  req_timeout : Z;
  req_streamed : bool
}.

Definition base_payload (model_name : string) (messages : list pyval) (stream : bool)
  : list (string * pyval) :=
  [("model", PStr model_name); ("messages", PList messages); ("stream", PBool stream)].

(** The standard options, common to the four classes. *)
Definition set_standard (o : PoeOptions) (payload : list (string * pyval))
  : list (string * pyval) :=
  set_if_not_none "max_tokens" (opt_int (max_tokens o))
    (set_if_not_none "temperature" (opt_float (temperature o)) payload).

(** [PoeModel.execute]: 30 s timeout, streamed iff [stream]. *)
Definition poe_model_request (model_name prompt : string) (o : PoeOptions)
  (conversation : option Conversation) (stream : bool) : Request :=
  let payload := base_payload model_name (build_messages conversation prompt) stream in
  let payload := set_standard o payload in
  mkRequest (POE_API_BASE ++ "/chat/completions") payload 30 stream.

(** [PoeImageModel.execute]: [stream] forced to [False], 60 s timeout. *)
Definition poe_image_model_request (model_name prompt : string) (o : PoeImageOptions)
  (conversation : option Conversation) (stream : bool) : Request :=
  let payload := base_payload model_name (build_messages conversation prompt) false in
  let payload := set_if_truthy "size" (opt_str (size o)) payload in
  let payload := set_if_truthy "quality" (opt_str (quality o)) payload in
  let payload := set_standard (image_base o) payload in
  mkRequest (POE_API_BASE ++ "/chat/completions") payload 60 false.

(** [PoeVideoModel.execute]: [stream] forced to [False], 120 s timeout. *)
Definition poe_video_model_request (model_name prompt : string) (o : PoeVideoOptions)
  (conversation : option Conversation) (stream : bool) : Request :=
  let payload := base_payload model_name (build_messages conversation prompt) false in
  let payload := set_if_truthy "duration" (opt_int (duration o)) payload in
  let payload := set_if_truthy "aspect_ratio" (opt_str (aspect_ratio o)) payload in
  let payload := set_standard (video_base o) payload in
  mkRequest (POE_API_BASE ++ "/chat/completions") payload 120 false.

(** [PoeAudioModel.execute]: streamed iff [stream], 60 s timeout on both
    branches. *)
Definition poe_audio_model_request (model_name prompt : string) (o : PoeAudioOptions)
  (conversation : option Conversation) (stream : bool) : Request :=
  let payload := base_payload model_name (build_messages conversation prompt) stream in
  let payload := set_if_truthy "voice" (opt_str (voice o)) payload in
  let payload := set_if_truthy "speed" (opt_float (speed o)) payload in
  let payload := set_standard (audio_base o) payload in
  mkRequest (POE_API_BASE ++ "/chat/completions") payload 60 stream.

(** A call of [execute] on one of the four classes, with that class's
    options object. *)
Inductive Call : Type :=
| TextCall (o : PoeOptions)
| ImageCall (o : PoeImageOptions)
| VideoCall (o : PoeVideoOptions)
| AudioCall (o : PoeAudioOptions).

Definition execute_request (model_name : string) (c : Call) (prompt : string)
  (conversation : option Conversation) (stream : bool) : Request :=
  match c with
  | TextCall o => poe_model_request model_name prompt o conversation stream
  | ImageCall o => poe_image_model_request model_name prompt o conversation stream
  | VideoCall o => poe_video_model_request model_name prompt o conversation stream
  | AudioCall o => poe_audio_model_request model_name prompt o conversation stream
  end.

(** The provider's answer to the request: a transport failure raised
    before any response is received (connecting or sending), or a status,
    the body text ([.json()]) and the body lines ([.iter_lines()]) read in
    full. A failure while [iter_lines] is still reading a streamed body is
    not represented. *)
Inductive Reply : Type :=
| RTransportError
| RResponse (status : Z) (body : string) (lines : list string).

Definition is_success (status : Z) : bool := ((200 <=? status) && (status <? 300))%Z.

(** [execute] on every class: [get_api_key()] (raising [ModelError] on a
    missing or empty key, before any request), the request, then
    [raise_for_status()] and the streaming or non-streaming decode. *)
Definition execute (loads : string -> option pyval) (model_name : string) (c : Call)
  (prompt : string) (conversation : option Conversation) (stream : bool)
  (api_key : option string) (reply : Reply) : option Request * Outcome :=
  match api_key with
  | None => (None, mkOutcome [] None (Some ModelError))
  | Some k =>
      if String.eqb k "" then (None, mkOutcome [] None (Some ModelError))
      else
        let req := execute_request model_name c prompt conversation stream in
        (Some req,
          match reply with
          | RTransportError => mkOutcome [] None (Some TransportError)
          | RResponse status body lines =>
              if is_success status then
                if req_streamed req then stream_outcome (stream_decode loads lines)
                else nonstream_decode loads body
              else mkOutcome [] None (Some (HTTPStatusError status))
          end)
  end.

(** ** Model catalog and its cache *)

(** The module-level globals [_model_cache] ([None] is [PNone]),
    [_cache_timestamp] and [_cache_duration]. *)
Record ModuleState : Type := mkModuleState {
  model_cache : pyval;
  cache_timestamp : option Z;
  cache_duration : Z
}.

Definition initial_state : ModuleState := mkModuleState PNone None 3600.

Definition fallback_entry (id : string) : pyval :=
  PDict [("id", PStr id); ("object", PStr "model")].

Definition fallback_model_ids : list string :=
  ["GPT-4o"; "Claude-Sonnet-4"; "Gemini-2.5-Pro"; "Llama-3.1-405B"; "Grok-4"].

Definition FALLBACK_MODELS : pyval := PList (map fallback_entry fallback_model_ids).

(** The network as the [GET {base}/models] call meets it. *)
Inductive NetResult : Type :=
| NetTransportError
| NetResponse (status : Z) (body : string).

(** One call of [fetch_available_models]: the list returned, the globals
    afterwards, and the number of network requests made. *)
Record FetchResult : Type := mkFetchResult {
  fetched : pyval;
  fetch_state : ModuleState;
  requests : nat
}.

(** [_model_cache is not None and _cache_timestamp is not None and
    current_time - _cache_timestamp < _cache_duration]. *)
Definition cache_valid (s : ModuleState) (current_time : Z) : bool :=
  match model_cache s, cache_timestamp s with
  | PNone, _ => false
  | _, None => false
  | _, Some t => (current_time - t <? cache_duration s)%Z
  end.

(** [if not api_key] after [get_api_key_optional()]. *)
Definition key_present (api_key : option string) : bool :=
  match api_key with
  | Some k => negb (String.eqb k "")
  | None => false
  end.

(** The part of the [try] that can raise: [client.get(...)],
    [raise_for_status()], [response.json()] and [data.get("data", [])]. *)
Definition get_models (loads : string -> option pyval) (net : NetResult) : res pyval :=
  match net with
  | NetTransportError => Raise TransportError
  | NetResponse status body =>
      if is_success status then
        match loads body with
        | None => Raise JSONDecodeError
        | Some data => py_get data "data" (PList [])
        end
      else Raise (HTTPStatusError status)
  end.

Definition fetch_available_models (loads : string -> option pyval)
  (api_key : option string) (current_time : Z) (net : NetResult) (s : ModuleState)
  : FetchResult :=
  if cache_valid s current_time then mkFetchResult (model_cache s) s 0
  else if negb (key_present api_key) then mkFetchResult FALLBACK_MODELS s 0
  else
    match get_models loads net with
    | Ok models =>
        mkFetchResult models (mkModuleState models (Some current_time) (cache_duration s)) 1
    | Raise _ => mkFetchResult FALLBACK_MODELS s 1
    end.

(** ** Registration *)

Definition image_indicators : list string :=
  ["imagen"; "dall"; "flux"; "ideogram"; "recraft"; "phoenix"; "midjourney";
   "stable"; "diffusion"; "draw"; "generate"; "create"; "art"; "picture"; "image"].

Definition video_indicators : list string :=
  ["veo"; "sora"; "runway"; "kling"; "hailuo"; "dream"; "pika"; "video";
   "motion"; "animate"; "film"; "movie"].

Definition audio_indicators : list string :=
  ["elevenlabs"; "cartesia"; "playai"; "orpheus"; "lyria"; "tts"; "speech";
   "voice"; "audio"; "speak"; "sound"; "music"].

Definition get_model_type (model_name : string) : string :=
  let name_lower := str_lower model_name in
  let hit := existsb (fun indicator => str_contains indicator name_lower) in
  if hit audio_indicators then "audio"
  else if hit video_indicators then "video"
  else if hit image_indicators then "image"
  else "text".

Inductive ModelClass : Type :=
| CPoeModel
| CPoeImageModel
| CPoeVideoModel
| CPoeAudioModel.

Definition class_of_type (model_type : string) : ModelClass :=
  if String.eqb model_type "image" then CPoeImageModel
  else if String.eqb model_type "video" then CPoeVideoModel
  else if String.eqb model_type "audio" then CPoeAudioModel
  else CPoeModel.

(** One call [register(Cls(model_id, model_name))]. *)
Record Registration : Type := mkRegistration {
  reg_class : ModelClass;
  reg_model_id : string;
  reg_model_name : string
}.

(** The id built on the main path of [register_models]. *)
Definition catalog_model_id (model_name : string) : string :=
  "poe/" ++ str_replace " " "_" (str_replace "." "_" (str_replace "-" "_" (str_lower model_name))).

(** The id built in the [except] branch of [register_models]. *)
Definition fallback_model_id (model_name : string) : string :=
  "poe/" ++ str_replace "-" "_" (str_lower model_name).

(** [for model_data in models]: what iterating a value yields. *)
Definition py_iter (v : pyval) : res (list pyval) :=
  match v with
  | PList l => Ok l
  | PDict kvs => Ok (map (fun kv => PStr (fst kv)) kvs)
  | PStr s => Ok (map (fun c => PStr (String c EmptyString)) (list_ascii_of_string s))
  | _ => Raise TypeError
  end.

(** The loop body for one [model_data]. *)
Definition register_entry (model_data : pyval) : res (list Registration) :=
  let! model_name := py_get model_data "id" (PStr "") in
  if truthy model_name then
    match model_name with
    | PStr n =>
        Ok [mkRegistration (class_of_type (get_model_type n)) (catalog_model_id n) n]
    | _ => Raise AttributeError
    end
  else Ok [].

(** The loop: registrations made, and the exception that stopped it. *)
Fixpoint register_entries (entries : list pyval) : list Registration * option pyexc :=
  match entries with
  | [] => ([], None)
  | model_data :: rest =>
      match register_entry model_data with
      | Raise e => ([], Some e)
      | Ok regs =>
          let (more, err) := register_entries rest in ((regs ++ more)%list, err)
      end
  end.

(** The [except] branch: every fallback model, with [fallback_model_id]. *)
Definition fallback_registrations : list Registration :=
  map (fun n => mkRegistration (class_of_type (get_model_type n)) (fallback_model_id n) n)
    fallback_model_ids.

(** The [try]/[except] of [register_models] over the list [models]
    returned by [fetch_available_models]; the registrations made before an
    exception stay made. *)
Definition register_catalog (models : pyval) : list Registration :=
  match py_iter models with
  | Raise _ => fallback_registrations
  | Ok entries =>
      let (regs, err) := register_entries entries in
      match err with
      | None => regs
      | Some _ => (regs ++ fallback_registrations)%list
      end
  end.

(** [register_models]: the registrations, in order, and the globals after. *)
Definition register_models (loads : string -> option pyval) (api_key : option string)
  (current_time : Z) (net : NetResult) (s : ModuleState)
  : list Registration * ModuleState :=
  let r := fetch_available_models loads api_key current_time net s in
  (register_catalog (fetched r), fetch_state r).

(** [PoeModel.__str__]: [f"Poe: {self.model_id.replace('poe/', '')}"];
    [remove_poe] is [replace('poe/', '')], scanning left to right. *)
Fixpoint remove_poe (s : string) : string :=
  match s with
  | String a ((String b (String c (String d r))) as s') =>
      if Ascii.eqb a "p"%char && Ascii.eqb b "o"%char && Ascii.eqb c "e"%char
         && Ascii.eqb d "/"%char
      then remove_poe r
      else String a (remove_poe s')
  | String a s' => String a (remove_poe s')
  | EmptyString => EmptyString
  end.

Definition poe_model_str (model_id : string) : string := "Poe: " ++ remove_poe model_id.

(** ** [detect_model_type_dynamically] *)

(** The answer to the one-token test request. *)
Inductive ProbeReply : Type :=
| ProbeTransportError
| ProbeResponse (status : Z) (body : string).

Definition any_in (exts : list string) (text : string) : bool :=
  existsb (fun ext => str_contains ext text) exts.

(** The analysis of the test reply's content. *)
Definition classify_content (content : string) : string :=
  let lower := str_lower content in
  if any_in [".jpg"; ".png"; ".gif"; ".mp4"; ".wav"; ".mp3"; "http"] lower then
    if any_in [".jpg"; ".png"; ".gif"] lower then "image"
    else if any_in [".mp4"; ".mov"; ".avi"] lower then "video"
    else if any_in [".wav"; ".mp3"; ".m4a"] lower then "audio"
    else "image"
  else "text".

(** The [try] block: [Ok (Some t)] is a [return t] inside it, [Ok None]
    falls through to the name-based detection; [content.lower()] raises
    [AttributeError] on a non-string content. *)
Definition probe_type (loads : string -> option pyval) (reply : ProbeReply)
  : res (option string) :=
  match reply with
  | ProbeTransportError => Raise TransportError
  | ProbeResponse status body =>
      if Z.eqb status 200 then
        match loads body with
        | None => Raise JSONDecodeError
        | Some data =>
            let! has_choices := py_contains "choices" data in
            if has_choices then
              let! choices := py_getitem_str data "choices" in
              if truthy choices then
                let! first := py_getitem_0 choices in
                let! message := py_getitem_str first "message" in
                let! content := py_getitem_str message "content" in
                match content with
                | PStr c => Ok (Some (classify_content c))
                | _ => Raise AttributeError
                end
              else Ok None
            else Ok None
        end
      else Ok None
  end.

(** [except Exception: pass], then [return get_model_type(model_name)]. *)
Definition detect_model_type_dynamically (loads : string -> option pyval)
  (model_name : string) (reply : ProbeReply) : string :=
  match probe_type loads reply with
  | Ok (Some t) => t
  | _ => get_model_type model_name
  end.

(** ** Streaming events, as the spec describes them *)

(** An SSE line carrying one delta, an empty delta, and the terminator. *)
Definition delta_line (s : string) : string :=
  "data: {" ++ jstr "choices" ++ ":[{" ++ jstr "delta" ++ ":{" ++ jstr "content"
  ++ ":" ++ jstr s ++ "}}]}".

Definition empty_delta_line : string :=
  "data: {" ++ jstr "choices" ++ ":[{" ++ jstr "delta" ++ ":{}}]}".

Definition done_line : string := "data: [DONE]".

(** The fragment an event carries according to the spec: [choices]
    non-empty and [choices[0].delta] holding a [content] key. *)
Definition event_delta (ev : pyval) : list pyval :=
  match ev with
  | PDict kvs =>
      match dict_lookup "choices" kvs with
      | Some (PList (PDict c0 :: _)) =>
          match dict_lookup "delta" c0 with
          | Some (PDict d) =>
              match dict_lookup "content" d with
              | Some v => [v]
              | None => []
              end
          | _ => []
          end
      | _ => []
      end
  | _ => []
  end.

(** The spec's streaming decode: ignore non-[data: ] lines, stop at
    [[DONE]], skip what does not parse, collect [event_delta]. *)
Fixpoint spec_stream_fragments (loads : string -> option pyval) (lines : list string)
  : list pyval :=
  match lines with
  | [] => []
  | line :: rest =>
      if starts_with "data: " line then
        let data := str_drop 6 line in
        if String.eqb data "[DONE]" then []
        else
          match loads data with
          | None => spec_stream_fragments loads rest
          | Some ev => (event_delta ev ++ spec_stream_fragments loads rest)%list
          end
      else spec_stream_fragments loads rest
  end.

(** An event the loop handles without an exception: an object whose
    [choices], when present and truthy, is an array whose first element is
    an object whose [delta], when present, is an object; or a value on which
    [\"choices\" in chunk] is false, namely a string not containing
    [choices] or an array with no element equal to the string [choices]. *)
Definition event_well_shaped (ev : pyval) : bool :=
  match ev with
  | PDict kvs =>
      match dict_lookup "choices" kvs with
      | None => true
      | Some c =>
          negb (truthy c) ||
          match c with
          | PList (PDict c0 :: _) =>
              match dict_lookup "delta" c0 with
              | None => true
              | Some (PDict _) => true
              | Some _ => false
              end
          | _ => false
          end
      end
  | PStr str => negb (str_contains "choices" str)
  | PList l => negb (existsb (fun x => match x with PStr k => String.eqb k "choices" | _ => false end) l)
  | _ => false
  end.

(** Every event that parses, up to the terminator, is of the wire shape. *)
Fixpoint events_well_shaped (loads : string -> option pyval) (lines : list string)
  : bool :=
  match lines with
  | [] => true
  | line :: rest =>
      if starts_with "data: " line then
        let data := str_drop 6 line in
        if String.eqb data "[DONE]" then true
        else
          match loads data with
          | None => events_well_shaped loads rest
          | Some ev => event_well_shaped ev && events_well_shaped loads rest
          end
      else events_well_shaped loads rest
  end.

Definition spec_example_lines : list string :=
  [delta_line "This"; empty_delta_line; delta_line " is"; done_line].

Example stream_decode_spec_example :
  stream_decode json_loads spec_example_lines = ([PStr "This"; PStr " is"], None).
Proof. reflexivity. Qed.

Example stream_decode_after_done :
  stream_decode json_loads
    [": keep-alive"; "data: {invalid json}"; delta_line "a"; done_line; delta_line "b"]
  = ([PStr "a"], None).
Proof. reflexivity. Qed.

Example stream_decode_skips_string_and_array_events :
  stream_decode json_loads ["data: " ++ jstr "hello"; "data: [1]"; delta_line "x"; done_line]
  = ([PStr "x"], None).
Proof. reflexivity. Qed.

Example stream_decode_null_event :
  stream_decode json_loads ["data: null"; delta_line "x"; done_line]
  = ([], Some TypeError).
Proof. reflexivity. Qed.

(** * Properties *)

(** ** Streaming decode *)

Lemma chunk_fragment_well_shaped (ev : pyval) :
  event_well_shaped ev = true -> chunk_fragment ev = Ok (event_delta ev).
Proof.
  destruct ev as [| | | |str|l|kvs]; simpl; try discriminate.
  { intros H. apply negb_true_iff in H. unfold chunk_fragment, bind; simpl. rewrite H. reflexivity. }
  { intros H. apply negb_true_iff in H. unfold chunk_fragment, bind; simpl. rewrite H. reflexivity. }
  unfold chunk_fragment, bind; simpl.
  destruct (dict_lookup "choices" kvs) as [c|] eqn:Hc; [|reflexivity].
  intros Hshape; simpl.
  destruct (truthy c) eqn:Ht; simpl in Hshape.
  - destruct c as [| | | | |l|]; try discriminate.
    destruct l as [|first rest]; [discriminate|].
    destruct first as [| | | | | |c0]; try discriminate; simpl.
    destruct (dict_lookup "delta" c0) as [d|] eqn:Hd; [|reflexivity].
    destruct d; try discriminate; simpl.
    match goal with |- context [dict_lookup "content" ?m] =>
      destruct (dict_lookup "content" m) end; reflexivity.
  - destruct c as [| | | | |l|]; try reflexivity.
    destruct l; [reflexivity|discriminate].
Qed.

(** C1 (as amended): on a body whose parsed events are all handled
    without an exception ([event_well_shaped]: objects of the wire shape,
    strings without [choices], arrays without the string [choices]), the
    streaming decode yields exactly the spec's fragments and ends
    without an exception: lines without the ["data: "] prefix are ignored,
    [[DONE]] stops the decode (later lines are not read), a remainder that
    does not parse is skipped, and an event yields [choices[0].delta.content]
    exactly when [choices] is non-empty and [delta] has a [content] key. *)
Theorem stream_decode_spec (loads : string -> option pyval) (lines : list string)
  (Hshape : events_well_shaped loads lines = true) :
  stream_decode loads lines = (spec_stream_fragments loads lines, None).
Proof.
  induction lines as [|line rest IH];
    cbn [stream_decode spec_stream_fragments events_well_shaped] in *; [reflexivity|].
  destruct (starts_with "data: " line); [|auto].
  destruct (String.eqb (str_drop 6 line) "[DONE]"); [reflexivity|].
  destruct (loads (str_drop 6 line)) as [ev|]; [|auto].
  apply andb_prop in Hshape as [Hev Hrest].
  rewrite (chunk_fragment_well_shaped ev Hev), (IH Hrest).
  reflexivity.
Qed.

Lemma stream_decode_spec_witness :
  events_well_shaped json_loads spec_example_lines = true /\
  stream_decode json_loads spec_example_lines = ([PStr "This"; PStr " is"], None).
Proof.
  split; [reflexivity|].
  rewrite (stream_decode_spec json_loads spec_example_lines); reflexivity.
Defined.

(** C1, counterexample: a ["data: null"] event parses, has no [choices],
    and is not skipped: [\"choices\" in None] raises [TypeError], which the
    loop does not catch, so the later delta is never yielded. *)
Lemma stream_decode_null_event_aborts :
  stream_decode json_loads ["data: null"; delta_line "x"; done_line] = ([], Some TypeError)
  /\ spec_stream_fragments json_loads ["data: null"; delta_line "x"; done_line] = [PStr "x"].
Proof. split; vm_compute; reflexivity. Qed.

(** ** Payload construction *)

Lemma dict_lookup_setitem (k k' : string) (v : pyval) (kvs : list (string * pyval)) :
  dict_lookup k (dict_setitem k' v kvs)
  = if String.eqb k k' then Some v else dict_lookup k kvs.
Proof.
  induction kvs as [|[k0 v0] r IH]; simpl.
  - destruct (String.eqb k k'); reflexivity.
  - destruct (String.eqb k' k0) eqn:H0; simpl.
    + apply String.eqb_eq in H0; subst k0.
      destruct (String.eqb k k'); reflexivity.
    + rewrite IH. destruct (String.eqb k k') eqn:H1; [|reflexivity].
      apply String.eqb_eq in H1; subst k'. rewrite H0. reflexivity.
Qed.

Lemma dict_lookup_set_if_not_none (k k' : string) (v : option pyval)
  (kvs : list (string * pyval)) :
  String.eqb k k' = false ->
  dict_lookup k (set_if_not_none k' v kvs) = dict_lookup k kvs.
Proof.
  intros H; destruct v; simpl; [rewrite dict_lookup_setitem, H|]; reflexivity.
Qed.

Lemma dict_lookup_set_if_truthy (k k' : string) (v : option pyval)
  (kvs : list (string * pyval)) :
  String.eqb k k' = false ->
  dict_lookup k (set_if_truthy k' v kvs) = dict_lookup k kvs.
Proof.
  intros H; destruct v as [x|]; simpl; [destruct (truthy x); [rewrite dict_lookup_setitem, H|]|];
    reflexivity.
Qed.

Lemma dict_lookup_set_standard (k : string) (o : PoeOptions) (kvs : list (string * pyval)) :
  String.eqb k "max_tokens" = false -> String.eqb k "temperature" = false ->
  dict_lookup k (set_standard o kvs) = dict_lookup k kvs.
Proof.
  intros H1 H2; unfold set_standard.
  rewrite dict_lookup_set_if_not_none by exact H1.
  apply dict_lookup_set_if_not_none; exact H2.
Qed.

(** Rewrites a lookup of a key through the optional assignments. *)
Ltac lookup_through :=
  repeat first
    [ rewrite dict_lookup_set_standard by reflexivity
    | rewrite dict_lookup_set_if_truthy by reflexivity
    | rewrite dict_lookup_set_if_not_none by reflexivity ].

(** The prior exchanges of a conversation, oldest first. *)
Definition exchanges (conversation : option Conversation) : list (string * string) :=
  match conversation with
  | Some c => map (fun r => (prev_prompt r, prev_text r)) (responses c)
  | None => []
  end.

(** The spec's message sequence: [user:Q1, assistant:A1, ..., user:P]. *)
Definition spec_messages (exs : list (string * string)) (prompt : string) : list pyval :=
  (flat_map (fun qa => [message "user" (fst qa); message "assistant" (snd qa)]) exs
   ++ [message "user" prompt])%list.

Definition message_role (m : pyval) : option pyval :=
  match m with
  | PDict kvs => dict_lookup "role" kvs
  | _ => None
  end.

Lemma fold_messages (rs : list PrevResponse) (acc : list pyval) :
  fold_left
    (fun msgs prev =>
       ((msgs ++ [message "user" (prev_prompt prev)])
          ++ [message "assistant" (prev_text prev)])%list) rs acc
  = (acc ++ flat_map (fun qa => [message "user" (fst qa); message "assistant" (snd qa)])
              (map (fun r => (prev_prompt r, prev_text r)) rs))%list.
Proof.
  revert acc; induction rs as [|r rs IH]; intros acc; simpl.
  - rewrite app_nil_r; reflexivity.
  - rewrite IH, <- !app_assoc; reflexivity.
Qed.

Lemma build_messages_spec (conversation : option Conversation) (prompt : string) :
  build_messages conversation prompt = spec_messages (exchanges conversation) prompt.
Proof.
  unfold build_messages, spec_messages, exchanges.
  destruct conversation as [c|]; [rewrite fold_messages|]; reflexivity.
Qed.

Lemma execute_request_messages (model_name : string) (c : Call) (prompt : string)
  (conversation : option Conversation) (stream : bool) :
  dict_lookup "messages" (req_payload (execute_request model_name c prompt conversation stream))
  = Some (PList (build_messages conversation prompt)).
Proof. destruct c; simpl; lookup_through; reflexivity. Qed.

(** C2: in every model class, the [messages] of the payload are
    [user:Q1, assistant:A1, ..., user:Qn, assistant:An, user:P] for the prior
    exchanges [(Qi, Ai)] of the conversation, [2n+1] messages, each with
    role [user] or [assistant] (never [system]). *)
Theorem execute_messages_spec (model_name : string) (c : Call) (prompt : string)
  (conversation : option Conversation) (stream : bool) :
  let msgs := spec_messages (exchanges conversation) prompt in
  dict_lookup "messages" (req_payload (execute_request model_name c prompt conversation stream))
    = Some (PList msgs)
  /\ List.length msgs = (2 * List.length (exchanges conversation) + 1)%nat
  /\ Forall (fun m => message_role m = Some (PStr "user")
                      \/ message_role m = Some (PStr "assistant")) msgs.
Proof.
  cbv zeta; split; [|split].
  - rewrite execute_request_messages, build_messages_spec; reflexivity.
  - unfold spec_messages; rewrite length_app; simpl.
    induction (exchanges conversation) as [|qa r IH]; simpl; lia.
  - unfold spec_messages; apply Forall_app; split.
    + induction (exchanges conversation) as [|qa r IH]; simpl; [constructor|].
      constructor; [left; reflexivity|].
      constructor; [right; reflexivity|exact IH].
    + constructor; [left; reflexivity|constructor].
Qed.

Example execute_messages_two_exchanges :
  let conv := mkConversation [mkPrevResponse "Q1" "A1"; mkPrevResponse "Q2" "A2"] in
  dict_lookup "messages"
    (req_payload (execute_request "GPT-4o" (TextCall (mkPoeOptions None None)) "P" (Some conv) true))
  = Some (PList [message "user" "Q1"; message "assistant" "A1";
                 message "user" "Q2"; message "assistant" "A2"; message "user" "P"]).
Proof. reflexivity. Qed.

(** ** Streaming flag and timeouts *)

(** C6: Image and Video calls send [stream: false] and are not streamed,
    whatever the caller asked; Text and Audio calls send the caller's flag
    and are streamed exactly when it is set. *)
Theorem execute_stream_field (model_name : string) (c : Call) (prompt : string)
  (conversation : option Conversation) (stream : bool) :
  let req := execute_request model_name c prompt conversation stream in
  match c with
  | ImageCall _ | VideoCall _ =>
      dict_lookup "stream" (req_payload req) = Some (PBool false) /\ req_streamed req = false
  | TextCall _ | AudioCall _ =>
      dict_lookup "stream" (req_payload req) = Some (PBool stream) /\ req_streamed req = stream
  end.
Proof. destruct c; simpl; lookup_through; split; reflexivity. Qed.

(** C8 (as amended): the timeout depends on the class only: 30 s for
    [PoeModel] (streaming or not), 60 s for [PoeAudioModel] (streaming or
    not), 60 s for [PoeImageModel], 120 s for [PoeVideoModel]. *)
Theorem execute_timeout (model_name : string) (c : Call) (prompt : string)
  (conversation : option Conversation) (stream : bool) :
  req_timeout (execute_request model_name c prompt conversation stream)
  = match c with
    | TextCall _ => 30
    | ImageCall _ => 60
    | VideoCall _ => 120
    | AudioCall _ => 60
    end%Z.
Proof. destruct c; reflexivity. Qed.

Definition no_options : PoeOptions := mkPoeOptions None None.

(** C8, counterexample: a plain, non-streaming chat completion on an audio
    model is sent with a 60 s timeout, not 30 s. *)
Lemma audio_plain_completion_timeout_60 :
  req_timeout
    (execute_request "ElevenLabs" (AudioCall (mkPoeAudioOptions no_options None None))
       "Say hello" None false) = 60%Z
  /\ req_timeout
    (execute_request "ElevenLabs" (AudioCall (mkPoeAudioOptions no_options None None))
       "Say hello" None false) <> 30%Z.
Proof. split; [reflexivity|discriminate]. Qed.

(** ** Optional fields of the payload *)

(** [temperature] and [max_tokens] are set exactly when not [None], on
    every class. *)
Lemma standard_option_present (o : PoeOptions) (kvs : list (string * pyval)) :
  dict_lookup "temperature" (set_standard o kvs)
    = match temperature o with
      | Some t => Some (PFloat t)
      | None => dict_lookup "temperature" kvs
      end
  /\ dict_lookup "max_tokens" (set_standard o kvs)
    = match max_tokens o with
      | Some m => Some (PInt m)
      | None => dict_lookup "max_tokens" kvs
      end.
Proof.
  unfold set_standard; split.
  - rewrite dict_lookup_set_if_not_none by reflexivity.
    destruct (temperature o); simpl; [rewrite dict_lookup_setitem|]; reflexivity.
  - destruct (max_tokens o); simpl; [rewrite dict_lookup_setitem; reflexivity|].
    apply dict_lookup_set_if_not_none; reflexivity.
Qed.

Definition zero_video_options : PoeVideoOptions :=
  mkPoeVideoOptions no_options (Some 0%Z) (Some "").

Definition zero_audio_options : PoeAudioOptions :=
  mkPoeAudioOptions no_options (Some "") (Some 0%Q).

Definition empty_image_options : PoeImageOptions :=
  mkPoeImageOptions no_options (Some "") (Some "").

(** C5, the code at the failing input: non-null option values that are
    falsy ([duration = 0], [speed = 0.0], empty strings) are left out of the
    payload by the [if prompt.options.<field>:] tests, while
    [temperature = 0.0] is kept by its [is not None] test. *)
Theorem falsy_options_dropped :
  dict_lookup "duration"
    (req_payload (execute_request "Veo-3" (VideoCall zero_video_options) "a cat" None false))
    = None
  /\ dict_lookup "aspect_ratio"
    (req_payload (execute_request "Veo-3" (VideoCall zero_video_options) "a cat" None false))
    = None
  /\ dict_lookup "speed"
    (req_payload (execute_request "ElevenLabs" (AudioCall zero_audio_options) "hi" None false))
    = None
  /\ dict_lookup "voice"
    (req_payload (execute_request "ElevenLabs" (AudioCall zero_audio_options) "hi" None false))
    = None
  /\ dict_lookup "size"
    (req_payload (execute_request "DALL-E-3" (ImageCall empty_image_options) "a cat" None false))
    = None
  /\ dict_lookup "temperature"
    (req_payload (execute_request "GPT-4o" (TextCall (mkPoeOptions (Some 0%Q) None)) "hi" None false))
    = Some (PFloat 0%Q).
Proof. vm_compute. repeat split. Qed.

(** ** Non-streaming decode *)

Lemma execute_nonstream (loads : string -> option pyval) (model_name : string) (c : Call)
  (prompt : string) (conversation : option Conversation) (stream : bool)
  (api_key : option string) (status : Z) (body : string) (lines : list string) :
  key_present api_key = true ->
  req_streamed (execute_request model_name c prompt conversation stream) = false ->
  is_success status = true ->
  snd (execute loads model_name c prompt conversation stream api_key
         (RResponse status body lines))
  = nonstream_decode loads body.
Proof.
  intros Hk Hs Hst; unfold execute.
  destruct api_key as [k|]; [|discriminate]; simpl in Hk.
  destruct (String.eqb k ""); [discriminate|]; simpl.
  rewrite Hst, Hs; reflexivity.
Qed.

(** C7: a non-streaming call whose 2xx body parses to a JSON object yields
    no fragment when [choices] is absent or empty, and exactly
    [choices[0].message.content] when [choices] is non-empty; in both cases
    it raises nothing and stores the whole parsed body into
    [response.response_json]. *)
Theorem execute_nonstream_choices (loads : string -> option pyval) (model_name : string)
  (c : Call) (prompt : string) (conversation : option Conversation) (stream : bool)
  (api_key : option string) (status : Z) (body : string) (lines : list string)
  (kvs : list (string * pyval))
  (Hkey : key_present api_key = true)
  (Hnostream : req_streamed (execute_request model_name c prompt conversation stream) = false)
  (Hstatus : is_success status = true)
  (Hbody : loads body = Some (PDict kvs)) :
  let out := snd (execute loads model_name c prompt conversation stream api_key
                    (RResponse status body lines)) in
  ((dict_lookup "choices" kvs = None \/ dict_lookup "choices" kvs = Some (PList [])) ->
     out = mkOutcome [] (Some (PDict kvs)) None)
  /\ (forall first rest msg content,
        dict_lookup "choices" kvs = Some (PList (PDict first :: rest)) ->
        dict_lookup "message" first = Some (PDict msg) ->
        dict_lookup "content" msg = Some content ->
        out = mkOutcome [content] (Some (PDict kvs)) None).
Proof.
  cbv zeta; rewrite (execute_nonstream loads model_name c prompt conversation stream
                       api_key status body lines Hkey Hnostream Hstatus).
  unfold nonstream_decode; rewrite Hbody.
  unfold choice_content, bind; simpl; split.
  - intros [H|H]; rewrite H; reflexivity.
  - intros first rest msg content Hc Hm Hct; rewrite Hc; simpl.
    rewrite Hm; simpl; rewrite Hct; reflexivity.
Qed.

Definition empty_choices_body : string := "{" ++ jstr "id" ++ ": " ++ jstr "x" ++ ", "
  ++ jstr "choices" ++ ": []}".

Lemma execute_nonstream_choices_witness :
  key_present (Some "key") = true
  /\ req_streamed (execute_request "DALL-E-3" (ImageCall empty_image_options) "a cat" None true)
     = false
  /\ is_success 200 = true
  /\ json_loads empty_choices_body = Some (PDict [("id", PStr "x"); ("choices", PList [])])
  /\ snd (execute json_loads "DALL-E-3" (ImageCall empty_image_options) "a cat" None true
            (Some "key") (RResponse 200 empty_choices_body []))
     = mkOutcome [] (Some (PDict [("id", PStr "x"); ("choices", PList [])])) None.
Proof.
  split; [reflexivity|]; split; [reflexivity|]; split; [reflexivity|].
  split; [reflexivity|].
  apply (execute_nonstream_choices json_loads "DALL-E-3" (ImageCall empty_image_options)
           "a cat" None true (Some "key") 200 empty_choices_body []
           [("id", PStr "x"); ("choices", PList [])]); try reflexivity.
  right; reflexivity.
Defined.

(** ** The catalog cache *)

(** A catalog fetch that raises inside the [try]: transport error, non-2xx
    status, body that is not JSON, or JSON that is not an object (no
    [.get]). *)
Definition catalog_fetch_fails (loads : string -> option pyval) (net : NetResult) : bool :=
  match net with
  | NetTransportError => true
  | NetResponse status body =>
      negb (is_success status) ||
      match loads body with
      | Some (PDict _) => false
      | _ => true
      end
  end.

(** C3 (as amended): once the cache is not valid and a key is present, a
    failing fetch returns the fallback list after one request and leaves
    the globals untouched; a 2xx body that is a JSON object is accepted as
    it is: its [data] field (or [[]] when absent) replaces the cache,
    stamped with the current time, and is returned.  [fetch_available_models]
    has no exceptional result. *)
Theorem fetch_failure_keeps_cache (loads : string -> option pyval)
  (api_key : option string) (current_time : Z) (net : NetResult) (s : ModuleState)
  (Hexpired : cache_valid s current_time = false)
  (Hkey : key_present api_key = true) :
  (catalog_fetch_fails loads net = true ->
     fetch_available_models loads api_key current_time net s
     = mkFetchResult FALLBACK_MODELS s 1)
  /\ (forall status body kvs,
        net = NetResponse status body ->
        is_success status = true ->
        loads body = Some (PDict kvs) ->
        let models := match dict_lookup "data" kvs with
                      | Some m => m
                      | None => PList []
                      end in
        fetch_available_models loads api_key current_time net s
        = mkFetchResult models
            (mkModuleState models (Some current_time) (cache_duration s)) 1).
Proof.
  unfold fetch_available_models; rewrite Hexpired, Hkey; simpl; split.
  - intros Hfail; destruct net as [|status body]; simpl in *; [reflexivity|].
    destruct (is_success status); simpl in *; [|reflexivity].
    destruct (loads body) as [[| | | | | |kvs]|]; simpl; try reflexivity.
    discriminate.
  - intros status body kvs -> Hst Hb; simpl.
    rewrite Hst, Hb; simpl.
    destruct (dict_lookup "data" kvs); reflexivity.
Qed.

Definition expired_state : ModuleState :=
  mkModuleState (PList [fallback_entry "Old-Model"]) (Some 0%Z) 3600.

Definition data_five_body : string := "{" ++ jstr "data" ++ ": 5}".

Lemma fetch_failure_keeps_cache_witness :
  cache_valid expired_state 4000 = false
  /\ key_present (Some "key") = true
  /\ catalog_fetch_fails json_loads (NetResponse 503 "Service Unavailable") = true
  /\ fetch_available_models json_loads (Some "key") 4000
       (NetResponse 503 "Service Unavailable") expired_state
     = mkFetchResult FALLBACK_MODELS expired_state 1.
Proof.
  split; [reflexivity|]; split; [reflexivity|]; split; [reflexivity|].
  apply (fetch_failure_keeps_cache json_loads (Some "key") 4000
           (NetResponse 503 "Service Unavailable") expired_state); reflexivity.
Defined.

(** C3, counterexample: with an expired cache, a 200 response whose body
    is the object [{"data": 5}] is not treated as a failure: [5] is
    returned instead of the fallback list and overwrites the cache. *)
Lemma fetch_malformed_data_overwrites_cache :
  let r := fetch_available_models json_loads (Some "key") 4000
             (NetResponse 200 data_five_body) expired_state in
  fetched r = PInt 5 /\ fetched r <> FALLBACK_MODELS
  /\ fetch_state r = mkModuleState (PInt 5) (Some 4000%Z) 3600
  /\ fetch_state r <> expired_state.
Proof. vm_compute. repeat split; discriminate. Qed.

(** C4 (as amended): without a key, a call that finds no valid cache
    entry (empty or expired) returns the five fallback models, makes no
    request and leaves the globals as they were, whatever the network would
    do; a valid cache entry is returned as it is, without a request, with or
    without a key. *)
Theorem fetch_without_key (loads : string -> option pyval) (api_key : option string)
  (current_time : Z) (net : NetResult) (s : ModuleState) :
  (key_present api_key = false -> cache_valid s current_time = false ->
     fetch_available_models loads api_key current_time net s
     = mkFetchResult FALLBACK_MODELS s 0
     /\ exists l, FALLBACK_MODELS = PList l /\ List.length l = 5%nat)
  /\ (cache_valid s current_time = true ->
        fetch_available_models loads api_key current_time net s
        = mkFetchResult (model_cache s) s 0).
Proof.
  unfold fetch_available_models; split.
  - intros Hk Hv; rewrite Hv, Hk; split; [reflexivity|].
    eexists; split; reflexivity.
  - intros Hv; rewrite Hv; reflexivity.
Qed.

Definition valid_state : ModuleState :=
  mkModuleState (PList [fallback_entry "Cached-Model"]) (Some 100%Z) 3600.

(** C4, counterexample: with a valid cache entry and no key, the cached
    list is returned, not the fallback list: the cache is read first. *)
Lemma fetch_without_key_reads_valid_cache :
  fetched (fetch_available_models json_loads None 200 NetTransportError valid_state)
  = PList [fallback_entry "Cached-Model"]
  /\ fetched (fetch_available_models json_loads None 200 NetTransportError valid_state)
     <> FALLBACK_MODELS.
Proof. vm_compute. split; [reflexivity|discriminate]. Qed.

Lemma fetch_without_key_witness :
  key_present None = false /\ cache_valid initial_state 0 = false
  /\ fetch_available_models json_loads None 0 NetTransportError initial_state
     = mkFetchResult FALLBACK_MODELS initial_state 0.
Proof.
  split; [reflexivity|]; split; [reflexivity|].
  apply (fetch_without_key json_loads None 0 NetTransportError initial_state);
    reflexivity.
Defined.

(** ** Registration *)

(** C9, the code at the failing input: when the catalog body is
    [{"data": 5}], iterating [5] raises [TypeError] and the [except] branch
    registers the fallback models with ids that only replace ['-']:
    ["Gemini-2.5-Pro"] gets ["poe/gemini_2.5_pro"], where the main path
    (here reached with the fallback list when no key is set) builds
    ["poe/gemini_2_5_pro"]. *)
Theorem fallback_registration_keeps_dots :
  In (mkRegistration CPoeModel "poe/gemini_2.5_pro" "Gemini-2.5-Pro")
     (fst (register_models json_loads (Some "key") 0 (NetResponse 200 data_five_body)
             initial_state))
  /\ In (mkRegistration CPoeModel "poe/llama_3.1_405b" "Llama-3.1-405B")
     (fst (register_models json_loads (Some "key") 0 (NetResponse 200 data_five_body)
             initial_state))
  /\ In (mkRegistration CPoeModel "poe/gemini_2_5_pro" "Gemini-2.5-Pro")
     (fst (register_models json_loads None 0 NetTransportError initial_state))
  /\ catalog_model_id "Flux.Pro 1.1-Ultra" = "poe/flux_pro_1_1_ultra".
Proof.
  vm_compute.
  split; [right; right; left; reflexivity|].
  split; [right; right; right; left; reflexivity|].
  split; [right; right; left; reflexivity|reflexivity].
Qed.

(** An entry the loop body handles without raising: an object whose [id],
    when present and truthy, is a string. *)
Definition entry_ok (e : pyval) : bool :=
  match e with
  | PDict kvs =>
      match dict_lookup "id" kvs with
      | Some v => negb (truthy v) || match v with PStr _ => true | _ => false end
      | None => true
      end
  | _ => false
  end.

(** One registration for an entry whose [id] is a non-empty string. *)
Definition spec_registration (e : pyval) : list Registration :=
  match e with
  | PDict kvs =>
      match dict_lookup "id" kvs with
      | Some (PStr n) =>
          if String.eqb n "" then []
          else [mkRegistration (class_of_type (get_model_type n)) (catalog_model_id n) n]
      | _ => []
      end
  | _ => []
  end.

(** The amended reading: one call per entry with a non-empty string id,
    until an entry the body cannot handle; from there, the five fallback
    models. *)
Fixpoint expected_registrations (entries : list pyval) : list Registration :=
  match entries with
  | [] => []
  | e :: rest =>
      if entry_ok e then (spec_registration e ++ expected_registrations rest)%list
      else fallback_registrations
  end.

Lemma register_entry_ok (e : pyval) :
  entry_ok e = true -> register_entry e = Ok (spec_registration e).
Proof.
  destruct e as [| | | | | |kvs]; try discriminate; simpl.
  unfold register_entry, bind; simpl.
  destruct (dict_lookup "id" kvs) as [v|]; [|reflexivity].
  destruct v as [|b|z|q|n|l|d]; simpl; intros H; try reflexivity.
  - destruct b; [discriminate|reflexivity].
  - destruct (Z.eqb z 0); [reflexivity|discriminate].
  - destruct (Qeq_bool q 0); [reflexivity|discriminate].
  - destruct (String.eqb n ""); reflexivity.
  - destruct l; [reflexivity|discriminate].
  - destruct d; [reflexivity|discriminate].
Qed.

Lemma register_entry_bad (e : pyval) :
  entry_ok e = false -> exists ex, register_entry e = Raise ex.
Proof.
  destruct e as [| | | | | |kvs]; simpl; intros H; try (eexists; reflexivity).
  unfold register_entry, bind, py_get.
  destruct (dict_lookup "id" kvs) as [v|]; [|discriminate].
  apply orb_false_iff in H as [Ht Hs]; apply negb_false_iff in Ht; rewrite Ht.
  destruct v; try discriminate; eexists; reflexivity.
Qed.

(** C10 (as amended): over a list of catalog entries, [register_models]
    makes one call per entry whose [id] is a non-empty string and none for
    an entry whose [id] is absent or falsy ([""], [null], [0], ...), as long
    as every entry is an object whose truthy [id] is a string; at the first
    entry that is not (not an object, or a truthy non-string [id]) the loop
    raises, and the [except] branch registers the five fallback models
    after the calls already made. *)
Theorem register_catalog_entries (entries : list pyval) :
  register_catalog (PList entries) = expected_registrations entries.
Proof.
  unfold register_catalog; simpl.
  induction entries as [|e rest IH]; simpl; [reflexivity|].
  destruct (entry_ok e) eqn:He.
  - rewrite (register_entry_ok e He).
    destruct (register_entries rest) as [more err].
    destruct err; rewrite <- IH; [rewrite app_assoc|]; reflexivity.
  - destruct (register_entry_bad e He) as [ex Hex]; rewrite Hex; reflexivity.
Qed.

(** C10, counterexample: one entry whose [id] is the number [5] is not a
    non-empty string, yet the catalog yields five registration calls (the
    fallback models), not none. *)
Lemma register_numeric_id_registers_fallback :
  register_catalog (PList [PDict [("id", PInt 5)]]) = fallback_registrations
  /\ List.length (register_catalog (PList [PDict [("id", PInt 5)]])) = 5%nat.
Proof. vm_compute. split; reflexivity. Qed.

Example register_catalog_skips_empty_ids :
  register_catalog
    (PList [PDict [("id", PStr "GPT-4o")]; PDict [("object", PStr "model")];
            PDict [("id", PStr "")]; PDict [("id", PStr "Sora-2")]])
  = [mkRegistration CPoeModel "poe/gpt_4o" "GPT-4o";
     mkRegistration CPoeVideoModel "poe/sora_2" "Sora-2"].
Proof. vm_compute. reflexivity. Qed.

(** ** Further properties of the streaming decode *)

(** Lines after a terminator are never read: whatever follows
    ["data: [DONE]"] does not change the outcome. *)
Theorem stream_decode_ignores_after_done (loads : string -> option pyval)
  (before after : list string) :
  stream_decode loads (before ++ done_line :: after)
  = stream_decode loads (before ++ [done_line]).
Proof.
  induction before as [|line rest IH]; [reflexivity|].
  cbn [stream_decode app].
  destruct (starts_with "data: " line); [|exact IH].
  destruct (String.eqb (str_drop 6 line) "[DONE]"); [reflexivity|].
  destruct (loads (str_drop 6 line)) as [chunk|]; [|exact IH].
  destruct (chunk_fragment chunk); [rewrite IH|]; reflexivity.
Qed.

(** Lines without the ["data: "] prefix (comments, [event:] lines, blank
    keep-alives) have no effect: removing them all gives the same outcome. *)
Theorem stream_decode_only_data_lines (loads : string -> option pyval)
  (lines : list string) :
  stream_decode loads (filter (starts_with "data: ") lines) = stream_decode loads lines.
Proof.
  induction lines as [|line rest IH]; [reflexivity|].
  cbn [filter]. destruct (starts_with "data: " line) eqn:Hp.
  - cbn [stream_decode]; rewrite Hp.
    destruct (String.eqb (str_drop 6 line) "[DONE]"); [reflexivity|].
    destruct (loads (str_drop 6 line)) as [chunk|]; [|exact IH].
    destruct (chunk_fragment chunk); [rewrite IH|]; reflexivity.
  - cbn [stream_decode]; rewrite Hp; exact IH.
Qed.

(** ** Errors of [execute] *)

(** Without a (non-empty) key, [execute] raises [ModelError] before building
    or sending any request, whatever the provider would answer. *)
Theorem execute_missing_key (loads : string -> option pyval) (model_name : string)
  (c : Call) (prompt : string) (conversation : option Conversation) (stream : bool)
  (api_key : option string) (reply : Reply)
  (Hkey : key_present api_key = false) :
  execute loads model_name c prompt conversation stream api_key reply
  = (None, mkOutcome [] None (Some ModelError)).
Proof.
  unfold execute; destruct api_key as [k|]; [|reflexivity].
  simpl in Hkey; destruct (String.eqb k ""); [reflexivity|discriminate].
Qed.

Lemma execute_missing_key_witness :
  key_present (Some "") = false
  /\ execute json_loads "GPT-4o" (TextCall no_options) "hi" None true (Some "")
       (RResponse 200 "" [delta_line "x"])
     = (None, mkOutcome [] None (Some ModelError)).
Proof.
  split; [reflexivity|].
  apply (execute_missing_key json_loads "GPT-4o" (TextCall no_options) "hi" None true
           (Some "") (RResponse 200 "" [delta_line "x"])); reflexivity.
Defined.

(** With a key, the request is sent and the completion path's failures
    surface unchanged: a transport error raised before any response is
    received as [TransportError], a non-2xx
    status as [HTTPStatusError] carrying that status, and an undecodable
    non-streaming body as [JSONDecodeError]; none yields a fragment or
    stores a response. *)
Theorem execute_errors_surface (loads : string -> option pyval) (model_name : string)
  (c : Call) (prompt : string) (conversation : option Conversation) (stream : bool)
  (api_key : option string)
  (Hkey : key_present api_key = true) :
  let req := execute_request model_name c prompt conversation stream in
  execute loads model_name c prompt conversation stream api_key RTransportError
    = (Some req, mkOutcome [] None (Some TransportError))
  /\ (forall status body lines, is_success status = false ->
        execute loads model_name c prompt conversation stream api_key
          (RResponse status body lines)
        = (Some req, mkOutcome [] None (Some (HTTPStatusError status))))
  /\ (forall status body lines, is_success status = true ->
        req_streamed req = false -> loads body = None ->
        execute loads model_name c prompt conversation stream api_key
          (RResponse status body lines)
        = (Some req, mkOutcome [] None (Some JSONDecodeError))).
Proof.
  cbv zeta; unfold execute.
  destruct api_key as [k|]; [|discriminate]; simpl in Hkey.
  destruct (String.eqb k ""); [discriminate|].
  split; [reflexivity|split].
  - intros status body lines Hs; rewrite Hs; reflexivity.
  - intros status body lines Hs Hn Hb; rewrite Hs, Hn.
    unfold nonstream_decode; rewrite Hb; reflexivity.
Qed.

Lemma execute_errors_surface_witness :
  key_present (Some "key") = true
  /\ execute json_loads "Sora-2" (VideoCall zero_video_options) "a cat" None false
       (Some "key") (RResponse 429 "{}" [])
     = (Some (execute_request "Sora-2" (VideoCall zero_video_options) "a cat" None false),
        mkOutcome [] None (Some (HTTPStatusError 429))).
Proof.
  split; [reflexivity|].
  apply (execute_errors_surface json_loads "Sora-2" (VideoCall zero_video_options) "a cat"
           None false (Some "key")); reflexivity.
Defined.

(** ** Further properties of the payload *)

(** The [PoeOptions] part of a call's options object. *)
Definition call_base (c : Call) : PoeOptions :=
  match c with
  | TextCall o => o
  | ImageCall o => image_base o
  | VideoCall o => video_base o
  | AudioCall o => audio_base o
  end.

(** The keys each class may write into its payload. *)
Definition allowed_keys (c : Call) : list string :=
  (["model"; "messages"; "stream"; "temperature"; "max_tokens"] ++
   match c with
   | TextCall _ => []
   | ImageCall _ => ["size"; "quality"]
   | VideoCall _ => ["duration"; "aspect_ratio"]
   | AudioCall _ => ["voice"; "speed"]
   end)%list.

(** A payload whose keys are distinct and all in [K]. *)
Definition payload_ok (K : list string) (kvs : list (string * pyval)) : Prop :=
  NoDup (map fst kvs) /\ incl (map fst kvs) K.

Lemma keys_setitem (k x : string) (v : pyval) (kvs : list (string * pyval)) :
  In x (map fst (dict_setitem k v kvs)) -> x = k \/ In x (map fst kvs).
Proof.
  induction kvs as [|[k0 v0] r IH]; simpl; [intuition|].
  destruct (String.eqb k k0); simpl; [tauto|].
  intros [H|H]; [tauto|]; destruct (IH H); tauto.
Qed.

Lemma setitem_ok (K : list string) (k : string) (v : pyval) (kvs : list (string * pyval)) :
  In k K -> payload_ok K kvs -> payload_ok K (dict_setitem k v kvs).
Proof.
  intros Hk [Hnd Hincl]; split.
  - induction kvs as [|[k0 v0] r IH]; simpl in *; [repeat constructor; auto|].
    inversion Hnd as [|? ? Hnin Hnd']; subst.
    destruct (String.eqb k k0) eqn:E; simpl; [constructor; assumption|].
    constructor.
    + intros Hin; destruct (keys_setitem k k0 v r Hin) as [->|Hin'].
      * rewrite String.eqb_refl in E; discriminate.
      * contradiction.
    + apply IH; [assumption|]. intros y Hy; apply Hincl; simpl; auto.
  - intros y Hy; destruct (keys_setitem k y v kvs Hy) as [->|Hin]; auto.
Qed.

Lemma set_if_not_none_ok (K : list string) (k : string) (v : option pyval)
  (kvs : list (string * pyval)) :
  In k K -> payload_ok K kvs -> payload_ok K (set_if_not_none k v kvs).
Proof. intros Hk H; destruct v; simpl; [apply setitem_ok|]; assumption. Qed.

Lemma set_if_truthy_ok (K : list string) (k : string) (v : option pyval)
  (kvs : list (string * pyval)) :
  In k K -> payload_ok K kvs -> payload_ok K (set_if_truthy k v kvs).
Proof.
  intros Hk H; destruct v as [x|]; simpl; [destruct (truthy x); [apply setitem_ok|]|];
    assumption.
Qed.

Lemma set_standard_ok (K : list string) (o : PoeOptions) (kvs : list (string * pyval)) :
  In "temperature" K -> In "max_tokens" K -> payload_ok K kvs ->
  payload_ok K (set_standard o kvs).
Proof.
  intros Ht Hm H; unfold set_standard.
  apply set_if_not_none_ok; [assumption|]. apply set_if_not_none_ok; assumption.
Qed.

Lemma base_payload_ok (K : list string) (model_name : string) (msgs : list pyval)
  (stream : bool) :
  In "model" K -> In "messages" K -> In "stream" K ->
  payload_ok K (base_payload model_name msgs stream).
Proof.
  intros H1 H2 H3; split.
  - simpl; repeat constructor; simpl; intuition discriminate.
  - intros y Hy; simpl in Hy; intuition (subst; assumption).
Qed.

(** Every class writes each payload key at most once and only keys of its
    own: the standard ones and its modality's two fields (a text payload
    never carries [size], [voice], ...). *)
Theorem execute_payload_keys (model_name : string) (c : Call) (prompt : string)
  (conversation : option Conversation) (stream : bool) :
  let keys := map fst (req_payload (execute_request model_name c prompt conversation stream)) in
  NoDup keys /\ incl keys (allowed_keys c).
Proof.
  cbv zeta.
  destruct c; cbn [execute_request poe_model_request poe_image_model_request
                   poe_video_model_request poe_audio_model_request req_payload];
    repeat first [ apply set_standard_ok | apply set_if_truthy_ok
                 | apply set_if_not_none_ok | apply base_payload_ok ];
    simpl; auto 12.
Qed.

(** In every class, [model] is the model name, the request goes to
    [{base}/chat/completions], and [temperature] and [max_tokens] are sent
    exactly when they are not [None] (so [temperature = 0.0] is sent). *)
Theorem execute_standard_fields (model_name : string) (c : Call) (prompt : string)
  (conversation : option Conversation) (stream : bool) :
  let req := execute_request model_name c prompt conversation stream in
  req_url req = POE_API_BASE ++ "/chat/completions"
  /\ dict_lookup "model" (req_payload req) = Some (PStr model_name)
  /\ dict_lookup "temperature" (req_payload req) = opt_float (temperature (call_base c))
  /\ dict_lookup "max_tokens" (req_payload req) = opt_int (max_tokens (call_base c)).
Proof.
  cbv zeta.
  destruct c; cbn [execute_request poe_model_request poe_image_model_request
                   poe_video_model_request poe_audio_model_request req_payload req_url
                   call_base];
    (split; [reflexivity|split; [lookup_through; reflexivity|]]);
    match goal with |- context [set_standard ?o ?kvs] =>
      destruct (standard_option_present o kvs) as [Ht Hm] end;
    rewrite Ht, Hm; lookup_through;
    unfold opt_float, opt_int;
    (split; [destruct (temperature _) | destruct (max_tokens _)]); reflexivity.
Qed.

Lemma dict_lookup_set_if_truthy_same (k : string) (v : option pyval)
  (kvs : list (string * pyval)) :
  dict_lookup k (set_if_truthy k v kvs)
  = match v with
    | Some x => if truthy x then Some x else dict_lookup k kvs
    | None => dict_lookup k kvs
    end.
Proof.
  destruct v as [x|]; simpl; [|reflexivity].
  destruct (truthy x); [rewrite dict_lookup_setitem, String.eqb_refl|]; reflexivity.
Qed.

(** The value a [if v: payload[k] = v] test leaves under [k] in a fresh
    payload. *)
Definition kept_if_truthy (v : option pyval) : option pyval :=
  match v with
  | Some x => if truthy x then Some x else None
  | None => None
  end.

(** The modality fields are sent exactly when their value is truthy:
    [size], [quality], [aspect_ratio] and [voice] when set to a non-empty
    string, [duration] when non-zero, [speed] when different from [0.0]. *)
Theorem execute_modality_fields (model_name prompt : string)
  (conversation : option Conversation) (stream : bool)
  (oi : PoeImageOptions) (ov : PoeVideoOptions) (oa : PoeAudioOptions) :
  let pay c := req_payload (execute_request model_name c prompt conversation stream) in
  dict_lookup "size" (pay (ImageCall oi)) = kept_if_truthy (opt_str (size oi))
  /\ dict_lookup "quality" (pay (ImageCall oi)) = kept_if_truthy (opt_str (quality oi))
  /\ dict_lookup "duration" (pay (VideoCall ov)) = kept_if_truthy (opt_int (duration ov))
  /\ dict_lookup "aspect_ratio" (pay (VideoCall ov))
     = kept_if_truthy (opt_str (aspect_ratio ov))
  /\ dict_lookup "voice" (pay (AudioCall oa)) = kept_if_truthy (opt_str (voice oa))
  /\ dict_lookup "speed" (pay (AudioCall oa)) = kept_if_truthy (opt_float (speed oa)).
Proof.
  cbv zeta; cbn [execute_request poe_image_model_request poe_video_model_request
                 poe_audio_model_request req_payload].
  repeat split; lookup_through; rewrite dict_lookup_set_if_truthy_same;
    lookup_through; unfold kept_if_truthy;
    match goal with |- context [match ?v with Some _ => _ | None => _ end] =>
      destruct v as [x|]; [destruct (truthy x)|] end; reflexivity.
Qed.

(** ** Further properties of the catalog cache *)

(** The cache is written only by a successful request, and as a whole: after
    any call the globals are either unchanged or hold exactly the list just
    returned with the current time; [_cache_duration] is never written, and
    a call makes at most one request. *)
Theorem fetch_state_shape (loads : string -> option pyval) (api_key : option string)
  (current_time : Z) (net : NetResult) (s : ModuleState) :
  let r := fetch_available_models loads api_key current_time net s in
  (fetch_state r = s
   \/ (fetch_state r = mkModuleState (fetched r) (Some current_time) (cache_duration s)
       /\ requests r = 1%nat))
  /\ cache_duration (fetch_state r) = cache_duration s
  /\ (requests r <= 1)%nat.
Proof.
  cbv zeta; unfold fetch_available_models.
  destruct (cache_valid s current_time); [simpl; auto|].
  destruct (key_present api_key); [|simpl; auto].
  destruct (get_models loads net); simpl; auto.
Qed.

Lemma cache_valid_after_store (models : pyval) (t t' d : Z) :
  models <> PNone ->
  cache_valid (mkModuleState models (Some t) d) t' = (t' - t <? d)%Z.
Proof. intros H; destruct models; [contradiction|..]; reflexivity. Qed.

(** A successful fetch is reused: a later call within [_cache_duration]
    seconds returns the same list without any request and without touching
    the globals, with or without a key and whatever the network does
    (provided the list is not [None]). *)
Theorem fetch_then_cached (loads : string -> option pyval) (api_key api_key' : option string)
  (t t' : Z) (net net' : NetResult) (s : ModuleState) (models : pyval)
  (Hexpired : cache_valid s t = false)
  (Hkey : key_present api_key = true)
  (Hok : get_models loads net = Ok models)
  (Hnone : models <> PNone)
  (Hwithin : (t' - t < cache_duration s)%Z) :
  let r1 := fetch_available_models loads api_key t net s in
  let r2 := fetch_available_models loads api_key' t' net' (fetch_state r1) in
  fetched r1 = models /\ requests r1 = 1%nat
  /\ fetched r2 = models /\ requests r2 = 0%nat /\ fetch_state r2 = fetch_state r1.
Proof.
  cbv zeta.
  assert (E1 : fetch_available_models loads api_key t net s
               = mkFetchResult models (mkModuleState models (Some t) (cache_duration s)) 1).
  { unfold fetch_available_models; rewrite Hexpired, Hkey, Hok; reflexivity. }
  rewrite E1; cbn [fetched requests fetch_state].
  unfold fetch_available_models.
  rewrite (cache_valid_after_store models t t' (cache_duration s) Hnone).
  apply Z.ltb_lt in Hwithin; rewrite Hwithin.
  repeat split; reflexivity.
Qed.

Definition one_model_body : string :=
  "{" ++ jstr "data" ++ ": [{" ++ jstr "id" ++ ": " ++ jstr "GPT-4o" ++ "}]}".

Lemma fetch_then_cached_witness :
  cache_valid initial_state 0 = false
  /\ key_present (Some "key") = true
  /\ get_models json_loads (NetResponse 200 one_model_body)
     = Ok (PList [PDict [("id", PStr "GPT-4o")]])
  /\ PList [PDict [("id", PStr "GPT-4o")]] <> PNone
  /\ (100 - 0 < cache_duration initial_state)%Z
  /\ fetched (fetch_available_models json_loads None 100 NetTransportError
        (fetch_state (fetch_available_models json_loads (Some "key") 0
                        (NetResponse 200 one_model_body) initial_state)))
     = PList [PDict [("id", PStr "GPT-4o")]].
Proof.
  split; [reflexivity|]; split; [reflexivity|]; split; [reflexivity|].
  split; [discriminate|]; split; [reflexivity|].
  apply (fetch_then_cached json_loads (Some "key") None 0 100
           (NetResponse 200 one_model_body) NetTransportError initial_state
           (PList [PDict [("id", PStr "GPT-4o")]])); try reflexivity; discriminate.
Defined.

(** A catalog whose [data] is [null] is returned as [None] after one
    request and stored as the cache with the current time, but the
    validity test reads a [None] cache as empty: every later call with a
    key makes a new request. *)
Theorem fetch_null_data_not_cached (loads : string -> option pyval)
  (api_key : option string) (t : Z) (net : NetResult) (s : ModuleState)
  (Hexpired : cache_valid s t = false)
  (Hkey : key_present api_key = true)
  (Hnull : get_models loads net = Ok PNone) :
  let r1 := fetch_available_models loads api_key t net s in
  fetched r1 = PNone /\ requests r1 = 1%nat
  /\ model_cache (fetch_state r1) = PNone /\ cache_timestamp (fetch_state r1) = Some t
  /\ (forall api_key' t' net', key_present api_key' = true ->
        requests (fetch_available_models loads api_key' t' net' (fetch_state r1)) = 1%nat).
Proof.
  cbv zeta.
  assert (E1 : fetch_available_models loads api_key t net s
               = mkFetchResult PNone (mkModuleState PNone (Some t) (cache_duration s)) 1).
  { unfold fetch_available_models; rewrite Hexpired, Hkey, Hnull; reflexivity. }
  rewrite E1; cbn [fetched requests fetch_state model_cache cache_timestamp].
  split; [reflexivity|]; split; [reflexivity|]; split; [reflexivity|]; split; [reflexivity|].
  intros api_key' t' net' Hkey'.
  unfold fetch_available_models; simpl; rewrite Hkey'.
  destruct (get_models loads net'); reflexivity.
Qed.

Definition null_data_body : string := "{" ++ jstr "data" ++ ": null}".

Lemma fetch_null_data_not_cached_witness :
  cache_valid initial_state 0 = false
  /\ key_present (Some "key") = true
  /\ get_models json_loads (NetResponse 200 null_data_body) = Ok PNone
  /\ (let r1 := fetch_available_models json_loads (Some "key") 0
                 (NetResponse 200 null_data_body) initial_state in
      fetched r1 = PNone /\ requests r1 = 1%nat
      /\ model_cache (fetch_state r1) = PNone /\ cache_timestamp (fetch_state r1) = Some 0%Z
      /\ (forall api_key' t' net', key_present api_key' = true ->
            requests (fetch_available_models json_loads api_key' t' net' (fetch_state r1))
            = 1%nat)).
Proof.
  split; [reflexivity|]; split; [reflexivity|]; split; [reflexivity|].
  apply (fetch_null_data_not_cached json_loads (Some "key") 0
           (NetResponse 200 null_data_body) initial_state); reflexivity.
Defined.

(** With [_cache_duration <= 0] (and a clock that does not go back) the
    cache is never used: every call with a key makes a request, and the
    condition still holds afterwards. *)
Theorem fetch_zero_duration (loads : string -> option pyval) (api_key : option string)
  (now : Z) (net : NetResult) (s : ModuleState)
  (Hdur : (cache_duration s <= 0)%Z)
  (Hts : forall t, cache_timestamp s = Some t -> (t <= now)%Z)
  (Hkey : key_present api_key = true) :
  let r := fetch_available_models loads api_key now net s in
  requests r = 1%nat
  /\ (cache_duration (fetch_state r) <= 0)%Z
  /\ (forall now' t, (now <= now')%Z -> cache_timestamp (fetch_state r) = Some t ->
        (t <= now')%Z).
Proof.
  cbv zeta.
  assert (Hv : cache_valid s now = false).
  { unfold cache_valid.
    destruct (model_cache s); destruct (cache_timestamp s) as [t|] eqn:E; try reflexivity;
      apply Z.ltb_ge; specialize (Hts t eq_refl); lia. }
  unfold fetch_available_models; rewrite Hv, Hkey.
  destruct (get_models loads net); simpl.
  - repeat split; [assumption|]. intros now' t Hle Ht; injection Ht as <-; lia.
  - repeat split; [assumption|]. intros now' t Hle Ht; specialize (Hts t Ht); lia.
Qed.

Lemma fetch_zero_duration_witness :
  (cache_duration (mkModuleState (PList []) (Some 5%Z) 0) <= 0)%Z
  /\ (forall t, cache_timestamp (mkModuleState (PList []) (Some 5%Z) 0) = Some t -> (t <= 5)%Z)
  /\ key_present (Some "key") = true
  /\ requests (fetch_available_models json_loads (Some "key") 5 NetTransportError
                (mkModuleState (PList []) (Some 5%Z) 0)) = 1%nat.
Proof.
  split; [simpl; lia|]; split; [intros t Ht; injection Ht as <-; lia|].
  split; [reflexivity|].
  apply (fetch_zero_duration json_loads (Some "key") 5 NetTransportError
           (mkModuleState (PList []) (Some 5%Z) 0)); [simpl; lia| |reflexivity].
  intros t Ht; injection Ht as <-; lia.
Defined.

(** ** Registered ids and names *)

Definition is_upper (c : ascii) : bool :=
  let n := nat_of_ascii c in ((65 <=? n) && (n <=? 90))%nat.

Fixpoint str_forall (p : ascii -> bool) (s : string) : bool :=
  match s with
  | EmptyString => true
  | String c s' => p c && str_forall p s'
  end.

Lemma ascii_lower_cases (c : ascii) :
  ascii_lower c = c \/
  (is_upper c = true /\ nat_of_ascii (ascii_lower c) = (nat_of_ascii c + 32)%nat).
Proof.
  unfold ascii_lower, is_upper.
  destruct ((65 <=? nat_of_ascii c) && (nat_of_ascii c <=? 90))%nat eqn:E; [right|left; reflexivity].
  split; [reflexivity|].
  apply andb_true_iff in E as [_ E2]. apply Nat.leb_le in E2.
  apply nat_ascii_embedding. lia.
Qed.

Lemma ascii_lower_not_upper (c : ascii) : is_upper (ascii_lower c) = false.
Proof.
  destruct (ascii_lower_cases c) as [E | [Hu En]].
  - rewrite E. unfold ascii_lower in E. unfold is_upper.
    destruct ((65 <=? nat_of_ascii c) && (nat_of_ascii c <=? 90))%nat eqn:F; [|reflexivity].
    apply andb_true_iff in F as [_ F2]. apply Nat.leb_le in F2.
    assert (G : nat_of_ascii (ascii_of_nat (nat_of_ascii c + 32)) = (nat_of_ascii c + 32)%nat)
      by (apply nat_ascii_embedding; lia).
    rewrite E in G. lia.
  - unfold is_upper. rewrite En.
    apply andb_false_iff. right. apply Nat.leb_gt.
    unfold is_upper in Hu. apply andb_true_iff in Hu as [Hu _]. apply Nat.leb_le in Hu. lia.
Qed.

Lemma ascii_lower_id (c : ascii) : is_upper c = false -> ascii_lower c = c.
Proof.
  intros H. unfold ascii_lower. unfold is_upper in H. rewrite H. reflexivity.
Qed.

Lemma str_lower_idem (s : string) : str_lower (str_lower s) = str_lower s.
Proof.
  induction s as [|c s IH]; [reflexivity|].
  cbn [str_lower]. rewrite IH, ascii_lower_id by apply ascii_lower_not_upper. reflexivity.
Qed.

Lemma str_forall_impl (p q : ascii -> bool) (s : string) :
  (forall c, p c = true -> q c = true) -> str_forall p s = true -> str_forall q s = true.
Proof.
  intros Hpq. induction s as [|c s IH]; [reflexivity|].
  cbn [str_forall]. intros H. apply andb_true_iff in H as [H1 H2].
  rewrite (Hpq c H1), (IH H2). reflexivity.
Qed.

Lemma str_forall_lower_upper (s : string) :
  str_forall (fun c => negb (is_upper c)) (str_lower s) = true.
Proof.
  induction s as [|c s IH]; [reflexivity|].
  cbn [str_lower str_forall]. rewrite ascii_lower_not_upper, IH. reflexivity.
Qed.

Lemma str_forall_lower (p : ascii -> bool) (s : string) :
  (forall c, p c = true -> p (ascii_lower c) = true) ->
  str_forall p s = true -> str_forall p (str_lower s) = true.
Proof.
  intros Hp. induction s as [|c s IH]; [reflexivity|].
  cbn [str_lower str_forall]. intros H. apply andb_true_iff in H as [H1 H2].
  rewrite (Hp c H1), (IH H2). reflexivity.
Qed.

Lemma str_forall_replace (p : ascii -> bool) (a b : ascii) (s : string) :
  p b = true -> str_forall (fun c => Ascii.eqb c a || p c) s = true ->
  str_forall p (str_replace a b s) = true.
Proof.
  intros Hb. induction s as [|c s IH]; [reflexivity|].
  cbn [str_replace str_forall]. intros H. apply andb_true_iff in H as [H1 H2].
  rewrite (IH H2), andb_true_r.
  destruct (Ascii.eqb c a); [exact Hb | exact H1].
Qed.

Definition no_upper_dash (c : ascii) : bool :=
  negb (is_upper c) && negb (Ascii.eqb c "-").

Definition id_char (c : ascii) : bool :=
  no_upper_dash c && negb (Ascii.eqb c ".") && negb (Ascii.eqb c " ").

Definition no_slash (c : ascii) : bool := negb (Ascii.eqb c "/").

Lemma fallback_suffix_chars (n : string) :
  str_forall no_upper_dash (str_replace "-" "_" (str_lower n)) = true.
Proof.
  apply str_forall_replace; [reflexivity|].
  apply (str_forall_impl (fun c => negb (is_upper c))); [|apply str_forall_lower_upper].
  intros c H. unfold no_upper_dash.
  destruct (Ascii.eqb c "-"); [reflexivity|]. rewrite H. reflexivity.
Qed.

Lemma catalog_suffix_chars (n : string) :
  str_forall id_char
    (str_replace " " "_" (str_replace "." "_" (str_replace "-" "_" (str_lower n)))) = true.
Proof.
  apply str_forall_replace; [reflexivity|].
  apply (str_forall_impl (fun c => no_upper_dash c && negb (Ascii.eqb c "."))).
  { intros c H. unfold id_char. destruct (Ascii.eqb c " "); [reflexivity|].
    rewrite H. reflexivity. }
  apply str_forall_replace; [reflexivity|].
  apply (str_forall_impl no_upper_dash).
  { intros c H. destruct (Ascii.eqb c "."); [reflexivity|]. rewrite H. reflexivity. }
  apply fallback_suffix_chars.
Qed.

Lemma no_slash_lower (c : ascii) : no_slash c = true -> no_slash (ascii_lower c) = true.
Proof.
  unfold no_slash. intros H.
  destruct (ascii_lower_cases c) as [E | [Hu En]]; [rewrite E; exact H|].
  apply negb_true_iff, Ascii.eqb_neq. intros E. rewrite E in En. change (nat_of_ascii "/") with 47%nat in En.
  unfold is_upper in Hu. apply andb_true_iff in Hu as [Hu _]. apply Nat.leb_le in Hu. lia.
Qed.

Lemma no_slash_replace (a : ascii) (s : string) :
  str_forall no_slash s = true -> str_forall no_slash (str_replace a "_" s) = true.
Proof.
  intros H. apply str_forall_replace; [reflexivity|].
  apply (str_forall_impl no_slash); [|exact H].
  intros c Hc. rewrite Hc. apply orb_true_r.
Qed.

Lemma remove_poe_no_slash (s : string) : str_forall no_slash s = true -> remove_poe s = s.
Proof.
  induction s as [|a s IH]; [reflexivity|].
  cbn [str_forall]. intros H. apply andb_true_iff in H as [Ha Hs].
  specialize (IH Hs).
  destruct s as [|b [|c [|d r]]]; try (simpl; rewrite ?IH; reflexivity).
  cbn [str_forall] in Hs. unfold no_slash at 3 in Hs.
  destruct (Ascii.eqb d "/") eqn:Ed; [simpl in Hs; rewrite !andb_false_r in Hs; discriminate|].
  change (remove_poe (String a (String b (String c (String d r)))))
    with (if Ascii.eqb a "p"%char && Ascii.eqb b "o"%char && Ascii.eqb c "e"%char
             && Ascii.eqb d "/"%char
          then remove_poe r else String a (remove_poe (String b (String c (String d r))))).
  rewrite Ed, andb_false_r, IH. reflexivity.
Qed.

Lemma registration_cases (v : pyval) (r : Registration) :
  In r (register_catalog v) ->
  (exists n, r = mkRegistration (class_of_type (get_model_type n)) (catalog_model_id n) n) \/
  (exists n, r = mkRegistration (class_of_type (get_model_type n)) (fallback_model_id n) n).
Proof.
  assert (Hentries : forall l, In r (fst (register_entries l)) ->
    exists n, r = mkRegistration (class_of_type (get_model_type n)) (catalog_model_id n) n).
  { induction l as [|e l IH]; [intros []|].
    cbn [register_entries]. destruct (register_entry e) as [regs|ex] eqn:Ee; [|intros []].
    destruct (register_entries l) as [more err]. cbn [fst] in *. intros Hin.
    apply in_app_or in Hin as [Hin|Hin]; [|exact (IH Hin)].
    unfold register_entry, bind in Ee.
    destruct (py_get e "id" (PStr "")) as [name|]; [|discriminate].
    destruct (truthy name); [|injection Ee as <-; destruct Hin].
    destruct name; try discriminate. injection Ee as <-.
    destruct Hin as [<-|[]]. eexists; reflexivity. }
  assert (Hfb : In r fallback_registrations ->
    exists n, r = mkRegistration (class_of_type (get_model_type n)) (fallback_model_id n) n).
  { unfold fallback_registrations. intros Hin. apply in_map_iff in Hin as [n [<- _]].
    exists n. reflexivity. }
  unfold register_catalog. destruct (py_iter v) as [entries|]; [|auto].
  specialize (Hentries entries).
  destruct (register_entries entries) as [regs err]. cbn [fst] in Hentries.
  destruct err; [|auto]. intros Hin. apply in_app_or in Hin as [Hin|Hin]; auto.
Qed.

(** Every model [register_models] registers is of the class that
    [get_model_type] gives for its name, and its id is [poe/] followed by
    a suffix with no ASCII capital letter and no hyphen, on the main path
    and in the [except] branch alike. *)
Theorem register_models_ids_and_classes (loads : string -> option pyval)
  (api_key : option string) (now : Z) (net : NetResult) (s : ModuleState)
  (r : Registration) :
  In r (fst (register_models loads api_key now net s)) ->
  reg_class r = class_of_type (get_model_type (reg_model_name r)) /\
  exists suffix, reg_model_id r = "poe/" ++ suffix /\
    str_forall no_upper_dash suffix = true.
Proof.
  unfold register_models. cbn [fst]. intros Hin.
  destruct (registration_cases _ _ Hin) as [[n ->] | [n ->]]; cbn [reg_class reg_model_name reg_model_id];
    split; try reflexivity.
  - eexists; split; [reflexivity|].
    apply (str_forall_impl id_char); [|apply catalog_suffix_chars].
    intros c H. unfold id_char in H. apply andb_true_iff in H as [H _].
    apply andb_true_iff in H as [H _]. exact H.
  - eexists; split; [reflexivity|]. apply fallback_suffix_chars.
Qed.

Lemma register_models_ids_and_classes_witness :
  In (mkRegistration CPoeModel "poe/gemini_2.5_pro" "Gemini-2.5-Pro")
     (fst (register_models json_loads (Some "k") 5000 (NetResponse 200 data_five_body)
             expired_state)) /\
  CPoeModel = class_of_type (get_model_type "Gemini-2.5-Pro") /\
  exists suffix, "poe/gemini_2.5_pro" = "poe/" ++ suffix /\
    str_forall no_upper_dash suffix = true.
Proof.
  assert (Hin : In (mkRegistration CPoeModel "poe/gemini_2.5_pro" "Gemini-2.5-Pro")
     (fst (register_models json_loads (Some "k") 5000 (NetResponse 200 data_five_body)
             expired_state))) by (vm_compute; right; right; left; reflexivity).
  split; [exact Hin|].
  exact (register_models_ids_and_classes json_loads (Some "k") 5000
           (NetResponse 200 data_five_body) expired_state _ Hin).
Defined.

(** [str(model)] of a registered model whose name has no [/] is
    [Poe: ] followed by its id without the [poe/] prefix. *)
Theorem registered_model_str (loads : string -> option pyval)
  (api_key : option string) (now : Z) (net : NetResult) (s : ModuleState)
  (r : Registration)
  (Hin : In r (fst (register_models loads api_key now net s)))
  (Hname : str_forall no_slash (reg_model_name r) = true) :
  exists suffix, reg_model_id r = "poe/" ++ suffix /\
    poe_model_str (reg_model_id r) = "Poe: " ++ suffix.
Proof.
  unfold register_models in Hin. cbn [fst] in Hin.
  assert (Hl : forall n, str_forall no_slash n = true -> str_forall no_slash (str_lower n) = true)
    by (intros n; apply str_forall_lower, no_slash_lower).
  destruct (registration_cases _ _ Hin) as [[n ->] | [n ->]];
    cbn [reg_model_name reg_model_id] in *; unfold catalog_model_id, fallback_model_id;
    eexists; split; try reflexivity;
    unfold poe_model_str; f_equal;
    change (remove_poe ("poe/" ++ ?x)) with (remove_poe x);
    apply remove_poe_no_slash; repeat apply no_slash_replace; apply Hl, Hname.
Qed.

Lemma registered_model_str_witness :
  In (mkRegistration CPoeModel "poe/gpt_4o" "GPT-4o")
     (fst (register_models json_loads None 0 NetTransportError initial_state)) /\
  str_forall no_slash "GPT-4o" = true /\
  exists suffix, "poe/gpt_4o" = "poe/" ++ suffix /\
    poe_model_str "poe/gpt_4o" = "Poe: " ++ suffix.
Proof.
  assert (Hin : In (mkRegistration CPoeModel "poe/gpt_4o" "GPT-4o")
     (fst (register_models json_loads None 0 NetTransportError initial_state)))
    by (vm_compute; left; reflexivity).
  split; [exact Hin|]. split; [reflexivity|].
  exact (registered_model_str json_loads None 0 NetTransportError initial_state _ Hin eq_refl).
Defined.

(** With no API key and no valid cache, [register_models] registers the
    fallback models through its main path, so with the fully sanitized ids
    ([-], [.] and space replaced), and leaves the globals unchanged. *)
Theorem register_models_without_key (loads : string -> option pyval)
  (api_key : option string) (now : Z) (net : NetResult) (s : ModuleState)
  (Hcache : cache_valid s now = false) (Hkey : key_present api_key = false) :
  register_models loads api_key now net s =
  (map (fun n => mkRegistration (class_of_type (get_model_type n)) (catalog_model_id n) n)
     fallback_model_ids, s).
Proof.
  unfold register_models, fetch_available_models. rewrite Hcache, Hkey.
  cbn [negb fetched fetch_state]. vm_compute. reflexivity.
Qed.

Lemma register_models_without_key_witness :
  cache_valid expired_state 5000 = false /\ key_present (Some "") = false /\
  register_models json_loads (Some "") 5000 NetTransportError expired_state =
  (map (fun n => mkRegistration (class_of_type (get_model_type n)) (catalog_model_id n) n)
     fallback_model_ids, expired_state).
Proof.
  split; [vm_compute; reflexivity|]. split; [reflexivity|].
  apply register_models_without_key; [vm_compute; reflexivity | reflexivity].
Defined.

(** [get_model_type] is insensitive to ASCII case: lower-casing the name
    first changes nothing. *)
Theorem get_model_type_lower (model_name : string) :
  get_model_type (str_lower model_name) = get_model_type model_name.
Proof.
  unfold get_model_type. rewrite str_lower_idem. reflexivity.
Qed.

(** [detect_model_type_dynamically] departs from the name-based type only
    on a 200 reply whose JSON has a first choice with a string content; the
    type is then the one read off that content. *)
Theorem detect_departs_only_on_content (loads : string -> option pyval)
  (model_name : string) (reply : ProbeReply)
  (Hdiff : detect_model_type_dynamically loads model_name reply <> get_model_type model_name) :
  exists body data c,
    reply = ProbeResponse 200 body /\ loads body = Some data /\
    choice_content data = Ok [PStr c] /\
    detect_model_type_dynamically loads model_name reply = classify_content c.
Proof.
  unfold detect_model_type_dynamically in *.
  destruct (probe_type loads reply) as [[t|]|] eqn:E; try contradiction.
  clear Hdiff. unfold probe_type in E.
  destruct reply as [|status body]; [discriminate|].
  destruct (Z.eqb status 200) eqn:Es; [|discriminate]. apply Z.eqb_eq in Es. subst status.
  destruct (loads body) as [data|] eqn:Eb; [|discriminate].
  exists body, data. unfold choice_content, bind in *.
  destruct (py_contains "choices" data) as [[|]|]; try discriminate.
  destruct (py_getitem_str data "choices") as [choices|]; try discriminate.
  destruct (truthy choices); try discriminate.
  destruct (py_getitem_0 choices) as [first|]; try discriminate.
  destruct (py_getitem_str first "message") as [message|]; try discriminate.
  destruct (py_getitem_str message "content") as [content|]; try discriminate.
  destruct content; try discriminate. injection E as <-.
  eexists. split; [reflexivity|split; [exact Eb|split; reflexivity]].
Qed.

Definition png_reply_body : string :=
  "{" ++ jstr "choices" ++ ": [{" ++ jstr "message" ++ ": {" ++ jstr "content" ++ ": "
  ++ jstr "see https://x.io/cat.png" ++ "}}]}".

Lemma detect_departs_only_on_content_witness :
  detect_model_type_dynamically json_loads "GPT-4o" (ProbeResponse 200 png_reply_body)
    <> get_model_type "GPT-4o" /\
  exists body data c,
    ProbeResponse 200 png_reply_body = ProbeResponse 200 body /\ json_loads body = Some data /\
    choice_content data = Ok [PStr c] /\
    detect_model_type_dynamically json_loads "GPT-4o" (ProbeResponse 200 png_reply_body)
      = classify_content c.
Proof.
  assert (H : detect_model_type_dynamically json_loads "GPT-4o" (ProbeResponse 200 png_reply_body)
    <> get_model_type "GPT-4o") by (vm_compute; discriminate).
  split; [exact H|]. exact (detect_departs_only_on_content _ _ _ H).
Defined.
